(** * Password complexity checker: a shallow embedding of [password_checker.py]

    The module under study is the [PasswordChecker] class: a scorer that maps
    a Python [str] to a dictionary with the keys ['strength'], ['score'],
    ['feedback'] and ['is_strong'].

    Layout of the development:
    - [Py]: the fragment of the Python runtime the class relies on
      (strings as sequences of code points, indexing that may raise
      [IndexError], [range] loops with early [return], [str.lower], the
      character classes of [re], f-string rendering of integers);
    - [Checker]: the class itself, method by method, under the names of the
      source;
    - [Reference]: closed-form readings of the run checks and of the
      feedback list, against which the methods are compared;
    - the properties. *)

From Stdlib Require Import ZArith List Bool String Ascii Lia.
From Stdlib Require Import DecimalString.
Import ListNotations.

Local Open Scope Z_scope.

(* ================================================================== *)
(** * The Python runtime fragment                                      *)
(* ================================================================== *)

Module Py.

(** A Python [str] is a finite sequence of Unicode code points; [ord] of a
    one-character string is its code point.  A code point is kept as an
    integer, as [ord] returns it. *)
Definition str := list Z.

Definition ord (c : Z) : Z := c.

Definition len (s : str) : Z := Z.of_nat (List.length s).

(** Truthiness of a string: [not s] holds exactly for the empty string. *)
Definition truthy (s : str) : bool :=
  match s with [] => false | _ :: _ => true end.

(** The code points of a string literal of the source (all of them ASCII). *)
Fixpoint lit (s : string) : str :=
  match s with
  | EmptyString => []
  | String a r => Z.of_nat (nat_of_ascii a) :: lit r
  end.

(** A well-formed string only holds code points of the Unicode range. *)
Definition wf_str (s : str) : bool :=
  forallb (fun c => (0 <=? c) && (c <=? 0x10FFFF)) s.

(** ** Exceptions *)

Inductive exn : Type := IndexError.

Inductive res (A : Type) : Type :=
| Ok (a : A)
| Raise (e : exn).
Arguments Ok {A} a.
Arguments Raise {A} e.

Definition bind {A B : Type} (m : res A) (k : A -> res B) : res B :=
  match m with
  | Ok a => k a
  | Raise e => Raise e
  end.

Notation "x <- m ;; k" := (bind m (fun x => k))
  (at level 61, m at next level, right associativity).

(** ** Subscription [s[i]]

    A negative index counts from the end; an index that is still out of
    range after that adjustment raises [IndexError]. *)
Definition getitem (s : str) (i : Z) : res Z :=
  let j := if i <? 0 then i + len s else i in
  if (j <? 0) || (len s <=? j) then Raise IndexError
  else match nth_error s (Z.to_nat j) with
       | Some c => Ok c
       | None => Raise IndexError
       end.

(** ** [for i in range(n): if <test>: return True] followed by [return False]

    [for_range_return test i k] runs the [k] remaining iterations starting at
    index [i]; the first iteration whose test holds returns [True], an
    exception raised by a test propagates, and exhausting the range falls
    through to [return False]. *)
Fixpoint for_range_return (test : Z -> res bool) (i : Z) (k : nat) : res bool :=
  match k with
  | O => Ok false
  | S k' =>
      b <- test i ;;
      if b then Ok true else for_range_return test (i + 1) k'
  end.

(** [range(n)] is empty when [n <= 0]. *)
Definition range_count (n : Z) : nat := Z.to_nat n.

(** ** Character classes of [re]

    [re.search] with a pattern that is a single character class succeeds iff
    some character of the subject belongs to the class. *)
Definition re_search_class (cls : Z -> bool) (s : str) : bool := existsb cls s.

Definition in_range (lo hi c : Z) : bool := (lo <=? c) && (c <=? hi).

Definition in_ranges (t : list (Z * Z)) (c : Z) : bool :=
  existsb (fun r => in_range (fst r) (snd r) c) t.

(** [[a-z]] and [[A-Z]]: with a [str] pattern and no flag these are the
    literal code point intervals. *)
Definition class_lower (c : Z) : bool := in_range 97 122 c.
Definition class_upper (c : Z) : bool := in_range 65 90 c.

(** The characters listed in [[!@#$%^&*()_+\-=\[\]{}|;:,.<>?]]; the three
    backslashes of the pattern escape [-], [[] and []]. *)
Definition special_characters : str := lit "!@#$%^&*()_+-=[]{}|;:,.<>?".

Definition class_special (c : Z) : bool :=
  existsb (Z.eqb c) special_characters.

(** The Unicode decimal digits (general category Nd), as closed intervals
    of code points, of the Unicode 14.0 database that CPython 3.11 ships. *)
Definition decimal_ranges : list (Z * Z) := [
  (0x30, 0x39); (0x660, 0x669); (0x6F0, 0x6F9); (0x7C0, 0x7C9); (0x966, 0x96F);
  (0x9E6, 0x9EF); (0xA66, 0xA6F); (0xAE6, 0xAEF); (0xB66, 0xB6F); (0xBE6, 0xBEF);
  (0xC66, 0xC6F); (0xCE6, 0xCEF); (0xD66, 0xD6F); (0xDE6, 0xDEF); (0xE50, 0xE59);
  (0xED0, 0xED9); (0xF20, 0xF29); (0x1040, 0x1049); (0x1090, 0x1099); (0x17E0, 0x17E9);
  (0x1810, 0x1819); (0x1946, 0x194F); (0x19D0, 0x19D9); (0x1A80, 0x1A89); (0x1A90, 0x1A99);
  (0x1B50, 0x1B59); (0x1BB0, 0x1BB9); (0x1C40, 0x1C49); (0x1C50, 0x1C59); (0xA620, 0xA629);
  (0xA8D0, 0xA8D9); (0xA900, 0xA909); (0xA9D0, 0xA9D9); (0xA9F0, 0xA9F9); (0xAA50, 0xAA59);
  (0xABF0, 0xABF9); (0xFF10, 0xFF19); (0x104A0, 0x104A9); (0x10D30, 0x10D39); (0x11066, 0x1106F);
  (0x110F0, 0x110F9); (0x11136, 0x1113F); (0x111D0, 0x111D9); (0x112F0, 0x112F9); (0x11450, 0x11459);
  (0x114D0, 0x114D9); (0x11650, 0x11659); (0x116C0, 0x116C9); (0x11730, 0x11739); (0x118E0, 0x118E9);
  (0x11950, 0x11959); (0x11C50, 0x11C59); (0x11D50, 0x11D59); (0x11DA0, 0x11DA9); (0x16A60, 0x16A69);
  (0x16AC0, 0x16AC9); (0x16B50, 0x16B59); (0x1D7CE, 0x1D7FF); (0x1E140, 0x1E149); (0x1E2F0, 0x1E2F9);
  (0x1E950, 0x1E959); (0x1FBF0, 0x1FBF9)
].

(** [\d] in a [str] pattern matches every Unicode decimal digit, not only
    [0-9]. *)
Definition class_digit (c : Z) : bool := in_ranges decimal_ranges c.

(** ** [str.lower]

    The lowercase mapping of a single code point.  An entry
    [(lo, hi, step, delta)] of the table maps every [c] of
    [lo, lo+step, ..., hi] to [c + delta]; U+0130 is the one code point whose
    lowercase form has two code points. *)

(** Code points whose lowercase form is another single code point. *)
Definition lowercase_table : list (Z * Z * Z * Z) := [
  (0x41, 0x5A, 1, 32); (0xC0, 0xD6, 1, 32); (0xD8, 0xDE, 1, 32); (0x100, 0x12E, 2, 1);
  (0x132, 0x136, 2, 1); (0x139, 0x147, 2, 1); (0x14A, 0x176, 2, 1); (0x178, 0x178, 1, (-121));
  (0x179, 0x17D, 2, 1); (0x181, 0x181, 1, 210); (0x182, 0x184, 2, 1); (0x186, 0x186, 1, 206);
  (0x187, 0x187, 1, 1); (0x189, 0x18A, 1, 205); (0x18B, 0x18B, 1, 1); (0x18E, 0x18E, 1, 79);
  (0x18F, 0x18F, 1, 202); (0x190, 0x190, 1, 203); (0x191, 0x191, 1, 1); (0x193, 0x193, 1, 205);
  (0x194, 0x194, 1, 207); (0x196, 0x196, 1, 211); (0x197, 0x197, 1, 209); (0x198, 0x198, 1, 1);
  (0x19C, 0x19C, 1, 211); (0x19D, 0x19D, 1, 213); (0x19F, 0x19F, 1, 214); (0x1A0, 0x1A4, 2, 1);
  (0x1A6, 0x1A6, 1, 218); (0x1A7, 0x1A7, 1, 1); (0x1A9, 0x1A9, 1, 218); (0x1AC, 0x1AC, 1, 1);
  (0x1AE, 0x1AE, 1, 218); (0x1AF, 0x1AF, 1, 1); (0x1B1, 0x1B2, 1, 217); (0x1B3, 0x1B5, 2, 1);
  (0x1B7, 0x1B7, 1, 219); (0x1B8, 0x1B8, 1, 1); (0x1BC, 0x1BC, 1, 1); (0x1C4, 0x1C4, 1, 2);
  (0x1C5, 0x1C5, 1, 1); (0x1C7, 0x1C7, 1, 2); (0x1C8, 0x1C8, 1, 1); (0x1CA, 0x1CA, 1, 2);
  (0x1CB, 0x1DB, 2, 1); (0x1DE, 0x1EE, 2, 1); (0x1F1, 0x1F1, 1, 2); (0x1F2, 0x1F4, 2, 1);
  (0x1F6, 0x1F6, 1, (-97)); (0x1F7, 0x1F7, 1, (-56)); (0x1F8, 0x21E, 2, 1); (0x220, 0x220, 1, (-130));
  (0x222, 0x232, 2, 1); (0x23A, 0x23A, 1, 10795); (0x23B, 0x23B, 1, 1); (0x23D, 0x23D, 1, (-163));
  (0x23E, 0x23E, 1, 10792); (0x241, 0x241, 1, 1); (0x243, 0x243, 1, (-195)); (0x244, 0x244, 1, 69);
  (0x245, 0x245, 1, 71); (0x246, 0x24E, 2, 1); (0x370, 0x372, 2, 1); (0x376, 0x376, 1, 1);
  (0x37F, 0x37F, 1, 116); (0x386, 0x386, 1, 38); (0x388, 0x38A, 1, 37); (0x38C, 0x38C, 1, 64);
  (0x38E, 0x38F, 1, 63); (0x391, 0x3A1, 1, 32); (0x3A4, 0x3AB, 1, 32); (0x3CF, 0x3CF, 1, 8);
  (0x3D8, 0x3EE, 2, 1); (0x3F4, 0x3F4, 1, (-60)); (0x3F7, 0x3F7, 1, 1); (0x3F9, 0x3F9, 1, (-7));
  (0x3FA, 0x3FA, 1, 1); (0x3FD, 0x3FF, 1, (-130)); (0x400, 0x40F, 1, 80); (0x410, 0x42F, 1, 32);
  (0x460, 0x480, 2, 1); (0x48A, 0x4BE, 2, 1); (0x4C0, 0x4C0, 1, 15); (0x4C1, 0x4CD, 2, 1);
  (0x4D0, 0x52E, 2, 1); (0x531, 0x556, 1, 48); (0x10A0, 0x10C5, 1, 7264); (0x10C7, 0x10C7, 1, 7264);
  (0x10CD, 0x10CD, 1, 7264); (0x13A0, 0x13EF, 1, 38864); (0x13F0, 0x13F5, 1, 8); (0x1C90, 0x1CBA, 1, (-3008));
  (0x1CBD, 0x1CBF, 1, (-3008)); (0x1E00, 0x1E94, 2, 1); (0x1E9E, 0x1E9E, 1, (-7615)); (0x1EA0, 0x1EFE, 2, 1);
  (0x1F08, 0x1F0F, 1, (-8)); (0x1F18, 0x1F1D, 1, (-8)); (0x1F28, 0x1F2F, 1, (-8)); (0x1F38, 0x1F3F, 1, (-8));
  (0x1F48, 0x1F4D, 1, (-8)); (0x1F59, 0x1F5F, 2, (-8)); (0x1F68, 0x1F6F, 1, (-8)); (0x1F88, 0x1F8F, 1, (-8));
  (0x1F98, 0x1F9F, 1, (-8)); (0x1FA8, 0x1FAF, 1, (-8)); (0x1FB8, 0x1FB9, 1, (-8)); (0x1FBA, 0x1FBB, 1, (-74));
  (0x1FBC, 0x1FBC, 1, (-9)); (0x1FC8, 0x1FCB, 1, (-86)); (0x1FCC, 0x1FCC, 1, (-9)); (0x1FD8, 0x1FD9, 1, (-8));
  (0x1FDA, 0x1FDB, 1, (-100)); (0x1FE8, 0x1FE9, 1, (-8)); (0x1FEA, 0x1FEB, 1, (-112)); (0x1FEC, 0x1FEC, 1, (-7));
  (0x1FF8, 0x1FF9, 1, (-128)); (0x1FFA, 0x1FFB, 1, (-126)); (0x1FFC, 0x1FFC, 1, (-9)); (0x2126, 0x2126, 1, (-7517));
  (0x212A, 0x212A, 1, (-8383)); (0x212B, 0x212B, 1, (-8262)); (0x2132, 0x2132, 1, 28); (0x2160, 0x216F, 1, 16);
  (0x2183, 0x2183, 1, 1); (0x24B6, 0x24CF, 1, 26); (0x2C00, 0x2C2F, 1, 48); (0x2C60, 0x2C60, 1, 1);
  (0x2C62, 0x2C62, 1, (-10743)); (0x2C63, 0x2C63, 1, (-3814)); (0x2C64, 0x2C64, 1, (-10727)); (0x2C67, 0x2C6B, 2, 1);
  (0x2C6D, 0x2C6D, 1, (-10780)); (0x2C6E, 0x2C6E, 1, (-10749)); (0x2C6F, 0x2C6F, 1, (-10783)); (0x2C70, 0x2C70, 1, (-10782));
  (0x2C72, 0x2C72, 1, 1); (0x2C75, 0x2C75, 1, 1); (0x2C7E, 0x2C7F, 1, (-10815)); (0x2C80, 0x2CE2, 2, 1);
  (0x2CEB, 0x2CED, 2, 1); (0x2CF2, 0x2CF2, 1, 1); (0xA640, 0xA66C, 2, 1); (0xA680, 0xA69A, 2, 1);
  (0xA722, 0xA72E, 2, 1); (0xA732, 0xA76E, 2, 1); (0xA779, 0xA77B, 2, 1); (0xA77D, 0xA77D, 1, (-35332));
  (0xA77E, 0xA786, 2, 1); (0xA78B, 0xA78B, 1, 1); (0xA78D, 0xA78D, 1, (-42280)); (0xA790, 0xA792, 2, 1);
  (0xA796, 0xA7A8, 2, 1); (0xA7AA, 0xA7AA, 1, (-42308)); (0xA7AB, 0xA7AB, 1, (-42319)); (0xA7AC, 0xA7AC, 1, (-42315));
  (0xA7AD, 0xA7AD, 1, (-42305)); (0xA7AE, 0xA7AE, 1, (-42308)); (0xA7B0, 0xA7B0, 1, (-42258)); (0xA7B1, 0xA7B1, 1, (-42282));
  (0xA7B2, 0xA7B2, 1, (-42261)); (0xA7B3, 0xA7B3, 1, 928); (0xA7B4, 0xA7C2, 2, 1); (0xA7C4, 0xA7C4, 1, (-48));
  (0xA7C5, 0xA7C5, 1, (-42307)); (0xA7C6, 0xA7C6, 1, (-35384)); (0xA7C7, 0xA7C9, 2, 1); (0xA7D0, 0xA7D0, 1, 1);
  (0xA7D6, 0xA7D8, 2, 1); (0xA7F5, 0xA7F5, 1, 1); (0xFF21, 0xFF3A, 1, 32); (0x10400, 0x10427, 1, 40);
  (0x104B0, 0x104D3, 1, 40); (0x10570, 0x10594, 2, 39); (0x10571, 0x10579, 2, 39); (0x1057D, 0x10589, 2, 39);
  (0x1058D, 0x10591, 2, 39); (0x10595, 0x10595, 1, 39); (0x10C80, 0x10CB2, 1, 64); (0x118A0, 0x118BF, 1, 32);
  (0x16E40, 0x16E5F, 1, 32); (0x1E900, 0x1E921, 1, 34)
].

Fixpoint lookup_lowercase (t : list (Z * Z * Z * Z)) (c : Z) : option Z :=
  match t with
  | [] => None
  | (lo, hi, step, delta) :: t' =>
      if in_range lo hi c && ((c - lo) mod step =? 0) then Some (c + delta)
      else lookup_lowercase t' c
  end.

Definition to_lower_full (c : Z) : str :=
  if c =? 0x130 then [0x69; 0x307]
  else match lookup_lowercase lowercase_table c with
       | Some l => [l]
       | None => [c]
       end.

(** Code points with the Cased property that are not case-ignorable. *)
Definition cased_ranges : list (Z * Z) := [
  (0x41, 0x5A); (0x61, 0x7A); (0xAA, 0xAA); (0xB5, 0xB5); (0xBA, 0xBA);
  (0xC0, 0xD6); (0xD8, 0xF6); (0xF8, 0x1BA); (0x1BC, 0x1BF); (0x1C4, 0x293);
  (0x295, 0x2AF); (0x370, 0x373); (0x376, 0x377); (0x37B, 0x37D); (0x37F, 0x37F);
  (0x386, 0x386); (0x388, 0x38A); (0x38C, 0x38C); (0x38E, 0x3A1); (0x3A3, 0x3F5);
  (0x3F7, 0x481); (0x48A, 0x52F); (0x531, 0x556); (0x560, 0x588); (0x10A0, 0x10C5);
  (0x10C7, 0x10C7); (0x10CD, 0x10CD); (0x10D0, 0x10FA); (0x10FD, 0x10FF); (0x13A0, 0x13F5);
  (0x13F8, 0x13FD); (0x1C80, 0x1C88); (0x1C90, 0x1CBA); (0x1CBD, 0x1CBF); (0x1D00, 0x1D2B);
  (0x1D6B, 0x1D77); (0x1D79, 0x1D9A); (0x1E00, 0x1F15); (0x1F18, 0x1F1D); (0x1F20, 0x1F45);
  (0x1F48, 0x1F4D); (0x1F50, 0x1F57); (0x1F59, 0x1F59); (0x1F5B, 0x1F5B); (0x1F5D, 0x1F5D);
  (0x1F5F, 0x1F7D); (0x1F80, 0x1FB4); (0x1FB6, 0x1FBC); (0x1FBE, 0x1FBE); (0x1FC2, 0x1FC4);
  (0x1FC6, 0x1FCC); (0x1FD0, 0x1FD3); (0x1FD6, 0x1FDB); (0x1FE0, 0x1FEC); (0x1FF2, 0x1FF4);
  (0x1FF6, 0x1FFC); (0x2102, 0x2102); (0x2107, 0x2107); (0x210A, 0x2113); (0x2115, 0x2115);
  (0x2119, 0x211D); (0x2124, 0x2124); (0x2126, 0x2126); (0x2128, 0x2128); (0x212A, 0x212D);
  (0x212F, 0x2134); (0x2139, 0x2139); (0x213C, 0x213F); (0x2145, 0x2149); (0x214E, 0x214E);
  (0x2160, 0x217F); (0x2183, 0x2184); (0x24B6, 0x24E9); (0x2C00, 0x2C7B); (0x2C7E, 0x2CE4);
  (0x2CEB, 0x2CEE); (0x2CF2, 0x2CF3); (0x2D00, 0x2D25); (0x2D27, 0x2D27); (0x2D2D, 0x2D2D);
  (0xA640, 0xA66D); (0xA680, 0xA69B); (0xA722, 0xA76F); (0xA771, 0xA787); (0xA78B, 0xA78E);
  (0xA790, 0xA7CA); (0xA7D0, 0xA7D1); (0xA7D3, 0xA7D3); (0xA7D5, 0xA7D9); (0xA7F5, 0xA7F6);
  (0xA7FA, 0xA7FA); (0xAB30, 0xAB5A); (0xAB60, 0xAB68); (0xAB70, 0xABBF); (0xFB00, 0xFB06);
  (0xFB13, 0xFB17); (0xFF21, 0xFF3A); (0xFF41, 0xFF5A); (0x10400, 0x1044F); (0x104B0, 0x104D3);
  (0x104D8, 0x104FB); (0x10570, 0x1057A); (0x1057C, 0x1058A); (0x1058C, 0x10592); (0x10594, 0x10595);
  (0x10597, 0x105A1); (0x105A3, 0x105B1); (0x105B3, 0x105B9); (0x105BB, 0x105BC); (0x10C80, 0x10CB2);
  (0x10CC0, 0x10CF2); (0x118A0, 0x118DF); (0x16E40, 0x16E7F); (0x1D400, 0x1D454); (0x1D456, 0x1D49C);
  (0x1D49E, 0x1D49F); (0x1D4A2, 0x1D4A2); (0x1D4A5, 0x1D4A6); (0x1D4A9, 0x1D4AC); (0x1D4AE, 0x1D4B9);
  (0x1D4BB, 0x1D4BB); (0x1D4BD, 0x1D4C3); (0x1D4C5, 0x1D505); (0x1D507, 0x1D50A); (0x1D50D, 0x1D514);
  (0x1D516, 0x1D51C); (0x1D51E, 0x1D539); (0x1D53B, 0x1D53E); (0x1D540, 0x1D544); (0x1D546, 0x1D546);
  (0x1D54A, 0x1D550); (0x1D552, 0x1D6A5); (0x1D6A8, 0x1D6C0); (0x1D6C2, 0x1D6DA); (0x1D6DC, 0x1D6FA);
  (0x1D6FC, 0x1D714); (0x1D716, 0x1D734); (0x1D736, 0x1D74E); (0x1D750, 0x1D76E); (0x1D770, 0x1D788);
  (0x1D78A, 0x1D7A8); (0x1D7AA, 0x1D7C2); (0x1D7C4, 0x1D7CB); (0x1DF00, 0x1DF09); (0x1DF0B, 0x1DF1E);
  (0x1E900, 0x1E943); (0x1F130, 0x1F149); (0x1F150, 0x1F169); (0x1F170, 0x1F189)
].

(** Code points with the Case_Ignorable property. *)
Definition case_ignorable_ranges : list (Z * Z) := [
  (0x27, 0x27); (0x2E, 0x2E); (0x3A, 0x3A); (0x5E, 0x5E); (0x60, 0x60);
  (0xA8, 0xA8); (0xAD, 0xAD); (0xAF, 0xAF); (0xB4, 0xB4); (0xB7, 0xB8);
  (0x2B0, 0x36F); (0x374, 0x375); (0x37A, 0x37A); (0x384, 0x385); (0x387, 0x387);
  (0x483, 0x489); (0x559, 0x559); (0x55F, 0x55F); (0x591, 0x5BD); (0x5BF, 0x5BF);
  (0x5C1, 0x5C2); (0x5C4, 0x5C5); (0x5C7, 0x5C7); (0x5F4, 0x5F4); (0x600, 0x605);
  (0x610, 0x61A); (0x61C, 0x61C); (0x640, 0x640); (0x64B, 0x65F); (0x670, 0x670);
  (0x6D6, 0x6DD); (0x6DF, 0x6E8); (0x6EA, 0x6ED); (0x70F, 0x70F); (0x711, 0x711);
  (0x730, 0x74A); (0x7A6, 0x7B0); (0x7EB, 0x7F5); (0x7FA, 0x7FA); (0x7FD, 0x7FD);
  (0x816, 0x82D); (0x859, 0x85B); (0x888, 0x888); (0x890, 0x891); (0x898, 0x89F);
  (0x8C9, 0x902); (0x93A, 0x93A); (0x93C, 0x93C); (0x941, 0x948); (0x94D, 0x94D);
  (0x951, 0x957); (0x962, 0x963); (0x971, 0x971); (0x981, 0x981); (0x9BC, 0x9BC);
  (0x9C1, 0x9C4); (0x9CD, 0x9CD); (0x9E2, 0x9E3); (0x9FE, 0x9FE); (0xA01, 0xA02);
  (0xA3C, 0xA3C); (0xA41, 0xA42); (0xA47, 0xA48); (0xA4B, 0xA4D); (0xA51, 0xA51);
  (0xA70, 0xA71); (0xA75, 0xA75); (0xA81, 0xA82); (0xABC, 0xABC); (0xAC1, 0xAC5);
  (0xAC7, 0xAC8); (0xACD, 0xACD); (0xAE2, 0xAE3); (0xAFA, 0xAFF); (0xB01, 0xB01);
  (0xB3C, 0xB3C); (0xB3F, 0xB3F); (0xB41, 0xB44); (0xB4D, 0xB4D); (0xB55, 0xB56);
  (0xB62, 0xB63); (0xB82, 0xB82); (0xBC0, 0xBC0); (0xBCD, 0xBCD); (0xC00, 0xC00);
  (0xC04, 0xC04); (0xC3C, 0xC3C); (0xC3E, 0xC40); (0xC46, 0xC48); (0xC4A, 0xC4D);
  (0xC55, 0xC56); (0xC62, 0xC63); (0xC81, 0xC81); (0xCBC, 0xCBC); (0xCBF, 0xCBF);
  (0xCC6, 0xCC6); (0xCCC, 0xCCD); (0xCE2, 0xCE3); (0xD00, 0xD01); (0xD3B, 0xD3C);
  (0xD41, 0xD44); (0xD4D, 0xD4D); (0xD62, 0xD63); (0xD81, 0xD81); (0xDCA, 0xDCA);
  (0xDD2, 0xDD4); (0xDD6, 0xDD6); (0xE31, 0xE31); (0xE34, 0xE3A); (0xE46, 0xE4E);
  (0xEB1, 0xEB1); (0xEB4, 0xEBC); (0xEC6, 0xEC6); (0xEC8, 0xECD); (0xF18, 0xF19);
  (0xF35, 0xF35); (0xF37, 0xF37); (0xF39, 0xF39); (0xF71, 0xF7E); (0xF80, 0xF84);
  (0xF86, 0xF87); (0xF8D, 0xF97); (0xF99, 0xFBC); (0xFC6, 0xFC6); (0x102D, 0x1030);
  (0x1032, 0x1037); (0x1039, 0x103A); (0x103D, 0x103E); (0x1058, 0x1059); (0x105E, 0x1060);
  (0x1071, 0x1074); (0x1082, 0x1082); (0x1085, 0x1086); (0x108D, 0x108D); (0x109D, 0x109D);
  (0x10FC, 0x10FC); (0x135D, 0x135F); (0x1712, 0x1714); (0x1732, 0x1733); (0x1752, 0x1753);
  (0x1772, 0x1773); (0x17B4, 0x17B5); (0x17B7, 0x17BD); (0x17C6, 0x17C6); (0x17C9, 0x17D3);
  (0x17D7, 0x17D7); (0x17DD, 0x17DD); (0x180B, 0x180F); (0x1843, 0x1843); (0x1885, 0x1886);
  (0x18A9, 0x18A9); (0x1920, 0x1922); (0x1927, 0x1928); (0x1932, 0x1932); (0x1939, 0x193B);
  (0x1A17, 0x1A18); (0x1A1B, 0x1A1B); (0x1A56, 0x1A56); (0x1A58, 0x1A5E); (0x1A60, 0x1A60);
  (0x1A62, 0x1A62); (0x1A65, 0x1A6C); (0x1A73, 0x1A7C); (0x1A7F, 0x1A7F); (0x1AA7, 0x1AA7);
  (0x1AB0, 0x1ACE); (0x1B00, 0x1B03); (0x1B34, 0x1B34); (0x1B36, 0x1B3A); (0x1B3C, 0x1B3C);
  (0x1B42, 0x1B42); (0x1B6B, 0x1B73); (0x1B80, 0x1B81); (0x1BA2, 0x1BA5); (0x1BA8, 0x1BA9);
  (0x1BAB, 0x1BAD); (0x1BE6, 0x1BE6); (0x1BE8, 0x1BE9); (0x1BED, 0x1BED); (0x1BEF, 0x1BF1);
  (0x1C2C, 0x1C33); (0x1C36, 0x1C37); (0x1C78, 0x1C7D); (0x1CD0, 0x1CD2); (0x1CD4, 0x1CE0);
  (0x1CE2, 0x1CE8); (0x1CED, 0x1CED); (0x1CF4, 0x1CF4); (0x1CF8, 0x1CF9); (0x1D2C, 0x1D6A);
  (0x1D78, 0x1D78); (0x1D9B, 0x1DFF); (0x1FBD, 0x1FBD); (0x1FBF, 0x1FC1); (0x1FCD, 0x1FCF);
  (0x1FDD, 0x1FDF); (0x1FED, 0x1FEF); (0x1FFD, 0x1FFE); (0x200B, 0x200F); (0x2018, 0x2019);
  (0x2024, 0x2024); (0x2027, 0x2027); (0x202A, 0x202E); (0x2060, 0x2064); (0x2066, 0x206F);
  (0x2071, 0x2071); (0x207F, 0x207F); (0x2090, 0x209C); (0x20D0, 0x20F0); (0x2C7C, 0x2C7D);
  (0x2CEF, 0x2CF1); (0x2D6F, 0x2D6F); (0x2D7F, 0x2D7F); (0x2DE0, 0x2DFF); (0x2E2F, 0x2E2F);
  (0x3005, 0x3005); (0x302A, 0x302D); (0x3031, 0x3035); (0x303B, 0x303B); (0x3099, 0x309E);
  (0x30FC, 0x30FE); (0xA015, 0xA015); (0xA4F8, 0xA4FD); (0xA60C, 0xA60C); (0xA66F, 0xA672);
  (0xA674, 0xA67D); (0xA67F, 0xA67F); (0xA69C, 0xA69F); (0xA6F0, 0xA6F1); (0xA700, 0xA721);
  (0xA770, 0xA770); (0xA788, 0xA78A); (0xA7F2, 0xA7F4); (0xA7F8, 0xA7F9); (0xA802, 0xA802);
  (0xA806, 0xA806); (0xA80B, 0xA80B); (0xA825, 0xA826); (0xA82C, 0xA82C); (0xA8C4, 0xA8C5);
  (0xA8E0, 0xA8F1); (0xA8FF, 0xA8FF); (0xA926, 0xA92D); (0xA947, 0xA951); (0xA980, 0xA982);
  (0xA9B3, 0xA9B3); (0xA9B6, 0xA9B9); (0xA9BC, 0xA9BD); (0xA9CF, 0xA9CF); (0xA9E5, 0xA9E6);
  (0xAA29, 0xAA2E); (0xAA31, 0xAA32); (0xAA35, 0xAA36); (0xAA43, 0xAA43); (0xAA4C, 0xAA4C);
  (0xAA70, 0xAA70); (0xAA7C, 0xAA7C); (0xAAB0, 0xAAB0); (0xAAB2, 0xAAB4); (0xAAB7, 0xAAB8);
  (0xAABE, 0xAABF); (0xAAC1, 0xAAC1); (0xAADD, 0xAADD); (0xAAEC, 0xAAED); (0xAAF3, 0xAAF4);
  (0xAAF6, 0xAAF6); (0xAB5B, 0xAB5F); (0xAB69, 0xAB6B); (0xABE5, 0xABE5); (0xABE8, 0xABE8);
  (0xABED, 0xABED); (0xFB1E, 0xFB1E); (0xFBB2, 0xFBC2); (0xFE00, 0xFE0F); (0xFE13, 0xFE13);
  (0xFE20, 0xFE2F); (0xFE52, 0xFE52); (0xFE55, 0xFE55); (0xFEFF, 0xFEFF); (0xFF07, 0xFF07);
  (0xFF0E, 0xFF0E); (0xFF1A, 0xFF1A); (0xFF3E, 0xFF3E); (0xFF40, 0xFF40); (0xFF70, 0xFF70);
  (0xFF9E, 0xFF9F); (0xFFE3, 0xFFE3); (0xFFF9, 0xFFFB); (0x101FD, 0x101FD); (0x102E0, 0x102E0);
  (0x10376, 0x1037A); (0x10780, 0x10785); (0x10787, 0x107B0); (0x107B2, 0x107BA); (0x10A01, 0x10A03);
  (0x10A05, 0x10A06); (0x10A0C, 0x10A0F); (0x10A38, 0x10A3A); (0x10A3F, 0x10A3F); (0x10AE5, 0x10AE6);
  (0x10D24, 0x10D27); (0x10EAB, 0x10EAC); (0x10F46, 0x10F50); (0x10F82, 0x10F85); (0x11001, 0x11001);
  (0x11038, 0x11046); (0x11070, 0x11070); (0x11073, 0x11074); (0x1107F, 0x11081); (0x110B3, 0x110B6);
  (0x110B9, 0x110BA); (0x110BD, 0x110BD); (0x110C2, 0x110C2); (0x110CD, 0x110CD); (0x11100, 0x11102);
  (0x11127, 0x1112B); (0x1112D, 0x11134); (0x11173, 0x11173); (0x11180, 0x11181); (0x111B6, 0x111BE);
  (0x111C9, 0x111CC); (0x111CF, 0x111CF); (0x1122F, 0x11231); (0x11234, 0x11234); (0x11236, 0x11237);
  (0x1123E, 0x1123E); (0x112DF, 0x112DF); (0x112E3, 0x112EA); (0x11300, 0x11301); (0x1133B, 0x1133C);
  (0x11340, 0x11340); (0x11366, 0x1136C); (0x11370, 0x11374); (0x11438, 0x1143F); (0x11442, 0x11444);
  (0x11446, 0x11446); (0x1145E, 0x1145E); (0x114B3, 0x114B8); (0x114BA, 0x114BA); (0x114BF, 0x114C0);
  (0x114C2, 0x114C3); (0x115B2, 0x115B5); (0x115BC, 0x115BD); (0x115BF, 0x115C0); (0x115DC, 0x115DD);
  (0x11633, 0x1163A); (0x1163D, 0x1163D); (0x1163F, 0x11640); (0x116AB, 0x116AB); (0x116AD, 0x116AD);
  (0x116B0, 0x116B5); (0x116B7, 0x116B7); (0x1171D, 0x1171F); (0x11722, 0x11725); (0x11727, 0x1172B);
  (0x1182F, 0x11837); (0x11839, 0x1183A); (0x1193B, 0x1193C); (0x1193E, 0x1193E); (0x11943, 0x11943);
  (0x119D4, 0x119D7); (0x119DA, 0x119DB); (0x119E0, 0x119E0); (0x11A01, 0x11A0A); (0x11A33, 0x11A38);
  (0x11A3B, 0x11A3E); (0x11A47, 0x11A47); (0x11A51, 0x11A56); (0x11A59, 0x11A5B); (0x11A8A, 0x11A96);
  (0x11A98, 0x11A99); (0x11C30, 0x11C36); (0x11C38, 0x11C3D); (0x11C3F, 0x11C3F); (0x11C92, 0x11CA7);
  (0x11CAA, 0x11CB0); (0x11CB2, 0x11CB3); (0x11CB5, 0x11CB6); (0x11D31, 0x11D36); (0x11D3A, 0x11D3A);
  (0x11D3C, 0x11D3D); (0x11D3F, 0x11D45); (0x11D47, 0x11D47); (0x11D90, 0x11D91); (0x11D95, 0x11D95);
  (0x11D97, 0x11D97); (0x11EF3, 0x11EF4); (0x13430, 0x13438); (0x16AF0, 0x16AF4); (0x16B30, 0x16B36);
  (0x16B40, 0x16B43); (0x16F4F, 0x16F4F); (0x16F8F, 0x16F9F); (0x16FE0, 0x16FE1); (0x16FE3, 0x16FE4);
  (0x1AFF0, 0x1AFF3); (0x1AFF5, 0x1AFFB); (0x1AFFD, 0x1AFFE); (0x1BC9D, 0x1BC9E); (0x1BCA0, 0x1BCA3);
  (0x1CF00, 0x1CF2D); (0x1CF30, 0x1CF46); (0x1D167, 0x1D169); (0x1D173, 0x1D182); (0x1D185, 0x1D18B);
  (0x1D1AA, 0x1D1AD); (0x1D242, 0x1D244); (0x1DA00, 0x1DA36); (0x1DA3B, 0x1DA6C); (0x1DA75, 0x1DA75);
  (0x1DA84, 0x1DA84); (0x1DA9B, 0x1DA9F); (0x1DAA1, 0x1DAAF); (0x1E000, 0x1E006); (0x1E008, 0x1E018);
  (0x1E01B, 0x1E021); (0x1E023, 0x1E024); (0x1E026, 0x1E02A); (0x1E130, 0x1E13D); (0x1E2AE, 0x1E2AE);
  (0x1E2EC, 0x1E2EF); (0x1E8D0, 0x1E8D6); (0x1E944, 0x1E94B); (0x1F3FB, 0x1F3FF); (0xE0001, 0xE0001);
  (0xE0020, 0xE007F); (0xE0100, 0xE01EF)
].

Definition is_cased (c : Z) : bool := in_ranges cased_ranges c.
Definition is_case_ignorable (c : Z) : bool := in_ranges case_ignorable_ranges c.

(** The first character of [s] that is not case-ignorable, if any. *)
Fixpoint skip_case_ignorable (s : str) : option Z :=
  match s with
  | [] => None
  | c :: s' => if is_case_ignorable c then skip_case_ignorable s' else Some c
  end.

(** Capital sigma (U+03A3) becomes the final form U+03C2 when a cased letter
    precedes it and none follows, case-ignorable characters being skipped on
    both sides; otherwise it becomes U+03C3.  [before] is the text to the
    left, nearest character first. *)
Definition handle_capital_sigma (before after : str) : Z :=
  let final_sigma :=
    match skip_case_ignorable before with
    | Some c => is_cased c
    | None => false
    end in
  let final_sigma :=
    if final_sigma then
      match skip_case_ignorable after with
      | Some c => negb (is_cased c)
      | None => true
      end
    else false in
  if final_sigma then 0x3C2 else 0x3C3.

Definition lower_ucs4 (before : str) (c : Z) (after : str) : str :=
  if c =? 0x3A3 then [handle_capital_sigma before after]
  else to_lower_full c.

Fixpoint do_lower (before : str) (s : str) : str :=
  match s with
  | [] => []
  | c :: after => lower_ucs4 before c after ++ do_lower (c :: before) after
  end.

Definition lower (s : str) : str := do_lower [] s.

(** ** Equality of strings and membership in a set of strings *)
Fixpoint str_eqb (a b : str) : bool :=
  match a, b with
  | [], [] => true
  | x :: a', y :: b' => (x =? y) && str_eqb a' b'
  | _, _ => false
  end.

Definition set_mem (s : str) (set : list str) : bool := existsb (str_eqb s) set.

(** ** Rendering of an integer inside an f-string: [f"{n}"] *)
Definition format_int (n : Z) : string := NilZero.string_of_int (Z.to_int n).

End Py.


(* ================================================================== *)
(** * The [PasswordChecker] class                                      *)
(* ================================================================== *)

Module Checker.
Import Py.

(** [class PasswordStrength(Enum)] with the [value] of each member. *)
Inductive PasswordStrength : Type :=
| VERY_WEAK | WEAK | FAIR | GOOD | STRONG | VERY_STRONG.

Definition value (s : PasswordStrength) : string :=
  match s with
  | VERY_WEAK => "Very Weak"
  | WEAK => "Weak"
  | FAIR => "Fair"
  | GOOD => "Good"
  | STRONG => "Strong"
  | VERY_STRONG => "Very Strong"
  end.

Definition strength_eqb (a b : PasswordStrength) : bool :=
  match a, b with
  | VERY_WEAK, VERY_WEAK | WEAK, WEAK | FAIR, FAIR
  | GOOD, GOOD | STRONG, STRONG | VERY_STRONG, VERY_STRONG => true
  | _, _ => false
  end.

(** [strength in [m1, ..., mk]] *)
Definition strength_in (s : PasswordStrength) (l : list PasswordStrength) : bool :=
  existsb (strength_eqb s) l.

(** The dictionary built by [_create_result]: its four keys as fields. *)
Record Result : Type := mkResult {
  strength : string;
  score : Z;
  feedback : list string;
  is_strong : bool
}.

(** [self.common_passwords], set in [__init__] and only read afterwards. *)
Definition common_passwords : list str :=
  [ lit "password"; lit "123456"; lit "123456789"; lit "qwerty"; lit "abc123";
    lit "password123"; lit "admin"; lit "letmein"; lit "welcome"; lit "monkey" ].

Definition _create_result (strength : PasswordStrength) (score : Z)
    (feedback : list string) : Result :=
  {| strength := value strength;
     score := score;
     feedback := feedback;
     is_strong := strength_in strength [GOOD; STRONG; VERY_STRONG] |}.

Definition _check_length (password : str) : Z :=
  let length := len password in
  if length <? 6 then 0
  else if length <? 8 then 5
  else if length <? 12 then 10
  else 15.

Definition _check_character_variety (password : str) : Z :=
  let score := 0 in
  let score := if re_search_class class_lower password then score + 5 else score in
  let score := if re_search_class class_upper password then score + 5 else score in
  let score := if re_search_class class_digit password then score + 5 else score in
  let score := if re_search_class class_special password then score + 5 else score in
  score.

(** The test of the loop of [_has_sequential_chars] at index [i]; [and]
    evaluates its right operand only when the left one holds. *)
Definition sequential_at (password : str) (i : Z) : res bool :=
  c1 <- getitem password (i + 1) ;;
  c0 <- getitem password i ;;
  if ord c1 =? ord c0 + 1 then
    c2 <- getitem password (i + 2) ;;
    c0' <- getitem password i ;;
    Ok (ord c2 =? ord c0' + 2)
  else Ok false.

Definition _has_sequential_chars (password : str) : res bool :=
  for_range_return (sequential_at password) 0 (range_count (len password - 2)).

(** The chained comparison [a == b == c] is [a == b and b == c]. *)
Definition repeated_at (password : str) (i : Z) : res bool :=
  c0 <- getitem password i ;;
  c1 <- getitem password (i + 1) ;;
  if c0 =? c1 then
    c2 <- getitem password (i + 2) ;;
    Ok (c1 =? c2)
  else Ok false.

Definition _has_repeated_chars (password : str) : res bool :=
  for_range_return (repeated_at password) 0 (range_count (len password - 2)).

Definition _check_patterns (password : str) : res Z :=
  let password_lower := lower password in
  if set_mem password_lower common_passwords then Ok (-10)
  else
    seq <- _has_sequential_chars password ;;
    if seq then Ok (-5)
    else
      rep <- _has_repeated_chars password ;;
      if rep then Ok (-5)
      else Ok 0.

Definition _determine_strength (score : Z) : PasswordStrength :=
  if score <? 5 then VERY_WEAK
  else if score <? 10 then WEAK
  else if score <? 20 then FAIR
  else if score <? 30 then GOOD
  else if score <? 40 then STRONG
  else VERY_STRONG.

(** [feedback.append(x)] on the local list. *)
Definition append (feedback : list string) (x : string) : list string :=
  feedback ++ [x].

(** [f"<a>{n}<b>"] *)
Definition fstring (a : string) (n : Z) (b : string) : string :=
  String.append a (String.append (format_int n) b).

Definition _generate_feedback (password : str) (strength : PasswordStrength)
  : res (list string) :=
  let feedback := [] in
  let length := len password in
  let feedback :=
    if length <? 8 then
      append feedback (fstring "Password is too short (" length
                               " characters). Use at least 8 characters.")
    else if length <? 12 then
      append feedback (fstring "Consider using a longer password (" length
                               " characters). 12+ characters recommended.")
    else
      append feedback (fstring "Good password length (" length " characters).") in
  let has_lower := re_search_class class_lower password in
  let has_upper := re_search_class class_upper password in
  let has_digits := re_search_class class_digit password in
  let has_special := re_search_class class_special password in
  let feedback :=
    if negb has_lower then append feedback "Add lowercase letters (a-z)"%string
    else feedback in
  let feedback :=
    if negb has_upper then append feedback "Add uppercase letters (A-Z)"%string
    else feedback in
  let feedback :=
    if negb has_digits then append feedback "Add numbers (0-9)"%string
    else feedback in
  let feedback :=
    if negb has_special then append feedback "Add special characters (!@#$%^&*)"%string
    else feedback in
  seq <- _has_sequential_chars password ;;
  let feedback :=
    if seq then append feedback "Avoid sequential characters (abc, 123)"%string
    else feedback in
  rep <- _has_repeated_chars password ;;
  let feedback :=
    if rep then append feedback "Avoid repeated characters (aaa, 111)"%string
    else feedback in
  let feedback :=
    if strength_in strength [VERY_WEAK; WEAK] then
      append feedback "Password is too weak. Consider using a password manager."%string
    else if strength_eqb strength FAIR then
      append feedback "Password is acceptable but could be stronger."%string
    else if strength_in strength [GOOD; STRONG; VERY_STRONG] then
      append feedback "Great! This is a strong password."%string
    else feedback in
  Ok feedback.

Definition check_password (password : str) : res Result :=
  if negb (truthy password) then
    Ok (_create_result VERY_WEAK 0 ["Password cannot be empty"%string])
  else
    let length_score := _check_length password in
    let char_variety_score := _check_character_variety password in
    pattern_score <- _check_patterns password ;;
    let total_score := length_score + char_variety_score + pattern_score in
    let strength := _determine_strength total_score in
    feedback <- _generate_feedback password strength ;;
    Ok (_create_result strength total_score feedback).

End Checker.


(* ================================================================== *)
(** * Reference readings                                               *)
(* ================================================================== *)

Module Reference.
Import Py Checker.

(** A sequential run: three consecutive characters whose code points grow
    by exactly one at each step.  A repeated run: three consecutive equal
    characters. *)
Definition sequential_triple (a b c : Z) : bool := (b =? a + 1) && (c =? a + 2).
Definition repeated_triple (a b c : Z) : bool := (a =? b) && (b =? c).

(** Does the string start with a triple of the given kind? *)
Definition starts_with_triple (triple : Z -> Z -> Z -> bool) (s : str) : bool :=
  match s with
  | a :: b :: c :: _ => triple a b c
  | _ => false
  end.

(** Does some window of three consecutive characters form such a triple? *)
Fixpoint has_run (triple : Z -> Z -> Z -> bool) (s : str) : bool :=
  match s with
  | [] => false
  | _ :: t => starts_with_triple triple s || has_run triple t
  end.

Definition has_sequential_run : str -> bool := has_run sequential_triple.
Definition has_repeated_run : str -> bool := has_run repeated_triple.

(** Case-insensitive membership in the set of common passwords. *)
Definition is_common (password : str) : bool :=
  set_mem (lower password) common_passwords.

(** The pattern penalty: the first check that matches, in the order
    common password, sequential run, repeated run. *)
Definition pattern_penalty (password : str) : Z :=
  if is_common password then -10
  else if has_sequential_run password then -5
  else if has_repeated_run password then -5
  else 0.

(** The messages of the feedback list. *)
Definition length_message (n : Z) : string :=
  if n <? 8 then
    fstring "Password is too short (" n " characters). Use at least 8 characters."
  else if n <? 12 then
    fstring "Consider using a longer password (" n
            " characters). 12+ characters recommended."
  else fstring "Good password length (" n " characters).".

Definition add_lowercase : string := "Add lowercase letters (a-z)".
Definition add_uppercase : string := "Add uppercase letters (A-Z)".
Definition add_numbers : string := "Add numbers (0-9)".
Definition add_special : string := "Add special characters (!@#$%^&*)".
Definition avoid_sequential : string := "Avoid sequential characters (abc, 123)".
Definition avoid_repeated : string := "Avoid repeated characters (aaa, 111)".

Definition closing_remark (tier : PasswordStrength) : string :=
  match tier with
  | VERY_WEAK | WEAK => "Password is too weak. Consider using a password manager."
  | FAIR => "Password is acceptable but could be stronger."
  | GOOD | STRONG | VERY_STRONG => "Great! This is a strong password."
  end.

(** [when b m]: the message [m] if [b] holds, nothing otherwise. *)
Definition when (b : bool) (m : string) : list string := if b then [m] else [].

(** One message per character class that no character of the password
    belongs to, in the order lowercase, uppercase, digit, special. *)
Definition missing_class_messages (password : str) : list string :=
  when (negb (re_search_class class_lower password)) add_lowercase ++
  when (negb (re_search_class class_upper password)) add_uppercase ++
  when (negb (re_search_class class_digit password)) add_numbers ++
  when (negb (re_search_class class_special password)) add_special.

(** The feedback list in its fixed order. *)
Definition feedback_layout (password : str) (tier : PasswordStrength) : list string :=
  [length_message (len password)] ++
  missing_class_messages password ++
  when (has_sequential_run password) avoid_sequential ++
  when (has_repeated_run password) avoid_repeated ++
  [closing_remark tier].

(** The sum of the three sub-scores. *)
Definition total_score (password : str) : Z :=
  _check_length password + _check_character_variety password
  + pattern_penalty password.

(** The number of character classes present in a password. *)
Definition class_count (password : str) : Z :=
  Z.b2z (re_search_class class_lower password) +
  Z.b2z (re_search_class class_upper password) +
  Z.b2z (re_search_class class_digit password) +
  Z.b2z (re_search_class class_special password).

End Reference.

(* ================================================================== *)
(** * The command-line loop of [password_checker.py]                   *)
(* ================================================================== *)

Module Cli.
Import Py Checker.










End Cli.

(* ================================================================== *)
(** * The password generator of [password_gui.py]                      *)
(* ================================================================== *)

Module Gui.
Import Py.

(** [string.ascii_letters] and [string.digits]. *)
Definition ascii_lowercase : str := lit "abcdefghijklmnopqrstuvwxyz".
Definition ascii_uppercase : str := lit "ABCDEFGHIJKLMNOPQRSTUVWXYZ".
Definition ascii_letters : str := ascii_lowercase ++ ascii_uppercase.
Definition digits : str := lit "0123456789".

(** [secrets.choice(seq)] is [seq[randbelow(len(seq))]]; the number drawn is
    an argument here. *)
Definition choice (seq : str) (drawn : Z) : res Z := getitem seq drawn.

(** [''.join(secrets.choice(characters) for _ in range(n))], the [k]-th call
    of [choice] drawing [rand k]. *)
Fixpoint join_choices (characters : str) (rand : nat -> Z) (k n : nat) : res str :=
  match n with
  | O => Ok []
  | S n' =>
      c <- choice characters (rand k) ;;
      rest <- join_choices characters rand (S k) n' ;;
      Ok (c :: rest)
  end.

(** [PasswordCheckerGUI.check_password] on the content of the entry: an
    empty entry only gets the warning box ([None]), any other content is
    checked and the result displayed. *)
Definition check_password (password : str) : res (option Checker.Result) :=
  if negb (truthy password) then Ok None
  else
    result <- Checker.check_password password ;;
    Ok (Some result).

(** [PasswordCheckerGUI.generate_password]: the password put in the entry
    and the outcome of the check that follows.  The widgets are not
    modelled. *)
Definition generate_password (rand : nat -> Z)
  : res (str * option Checker.Result) :=
  let length := 16 in
  let characters := ascii_letters ++ digits ++ lit "!@#$%^&*" in
  password <- join_choices characters rand 0 (range_count length) ;;
  shown <- check_password password ;;
  Ok (password, shown).

End Gui.

(* ================================================================== *)
(** * Further reference readings                                       *)
(* ================================================================== *)

Module Derived.
Import Py Checker Reference.

(** The dictionary [check_password] returns. *)
Definition result_of (password : str) : Result :=
  if truthy password then
    _create_result (_determine_strength (total_score password))
      (total_score password)
      (feedback_layout password (_determine_strength (total_score password)))
  else _create_result VERY_WEAK 0 ["Password cannot be empty"%string].

(** Lowercasing of an ASCII character. *)
Definition ascii_lower (c : Z) : Z := if in_range 65 90 c then c + 32 else c.

Definition is_ascii (c : Z) : Prop := c < 128.



(** The alphabet of the generator. *)
Definition generator_alphabet : str :=
  Gui.ascii_letters ++ Gui.digits ++ lit "!@#$%^&*".

(** Where the table sends a code point: the entry of A-Z adds 32, KELVIN
    SIGN (U+212A) becomes [k], and every other entry stays beyond U+007F. *)
Definition entry_image_ok (e : Z * Z * Z * Z) : bool :=
  let '(lo, hi, step, delta) := e in
  ((lo =? 65) && (hi =? 90) && (delta =? 32))
  || ((lo =? 0x212A) && (hi =? 0x212A) && (lo + delta =? 107))
  || (128 <=? lo + delta).

(** What the ten common passwords share: at most 11 characters, a first
    character that is an ASCII lowercase letter or digit other than [i] and
    [k], and no special character. *)
Definition common_shape (w : str) : bool :=
  (len w <=? 11)
  && match w with
     | [] => false
     | x :: _ => (x <? 128) && negb (x =? 105) && negb (x =? 107)
                 && (class_lower x || class_digit x)
     end
  && negb (re_search_class class_special w).

(** What [generate_password] gives when all sixteen draws are [j]. *)
Definition same_draw_is_fair (j : Z) : bool :=
  match Gui.generate_password (fun _ => j) with
  | Ok (_, Some r) =>
      (score r =? 15) && String.eqb (strength r) (value FAIR)
      && negb (Checker.is_strong r)
  | _ => false
  end.

End Derived.

Import Py Checker Reference Derived.

(* ================================================================== *)
(** * Indexing and the window loops                                    *)
(* ================================================================== *)

Section Loops.

Lemma len_app (a b : str) : len (a ++ b) = len a + len b.
Proof. unfold len. rewrite length_app. lia. Qed.

Lemma len_cons (c : Z) (s : str) : len (c :: s) = len s + 1.
Proof. unfold len. cbn [List.length]. lia. Qed.

Lemma len_nonneg (s : str) : 0 <= len s.
Proof. unfold len. lia. Qed.

(** Reading at offset [k] behind a prefix returns the [k]-th character of
    the rest, whenever there is one. *)
Lemma getitem_app (pre t : str) (k : nat) (x : Z) :
  nth_error t k = Some x ->
  getitem (pre ++ t) (len pre + Z.of_nat k) = Ok x.
Proof.
  intros Hk.
  assert (Hlt : (k < List.length t)%nat)
    by (apply nth_error_Some; rewrite Hk; discriminate).
  unfold getitem.
  pose proof (len_nonneg pre) as Hpre.
  destruct (len pre + Z.of_nat k <? 0) eqn:Hneg; [lia|].
  rewrite Hneg. rewrite len_app.
  destruct (len pre + len t <=? len pre + Z.of_nat k) eqn:Hhi.
  - unfold len in *. lia.
  - cbn [orb].
    replace (Z.to_nat (len pre + Z.of_nat k)) with (List.length pre + k)%nat
      by (unfold len; lia).
    rewrite nth_error_app2 by lia.
    replace (List.length pre + k - List.length pre)%nat with k by lia.
    now rewrite Hk.
Qed.

Lemma getitem_window (pre : str) (a b c : Z) (t : str) :
  getitem (pre ++ a :: b :: c :: t) (len pre) = Ok a /\
  getitem (pre ++ a :: b :: c :: t) (len pre + 1) = Ok b /\
  getitem (pre ++ a :: b :: c :: t) (len pre + 2) = Ok c.
Proof.
  pose proof (getitem_app pre (a :: b :: c :: t) 0 a eq_refl) as H0.
  pose proof (getitem_app pre (a :: b :: c :: t) 1 b eq_refl) as H1.
  pose proof (getitem_app pre (a :: b :: c :: t) 2 c eq_refl) as H2.
  cbn [Z.of_nat Pos.of_succ_nat Pos.succ] in H0, H1, H2.
  rewrite Z.add_0_r in H0. auto.
Qed.

Variable test : str -> Z -> res bool.
Variable triple : Z -> Z -> Z -> bool.
Hypothesis test_window : forall pre a b c t,
  test (pre ++ a :: b :: c :: t) (len pre) = Ok (triple a b c).

(** Scanning the windows of [t] that sit behind the prefix [pre]: the loop
    never reads out of range and finds a run iff [t] has one. *)
Lemma for_range_windows (t pre : str) :
  for_range_return (test (pre ++ t)) (len pre) (range_count (len t - 2))
  = Ok (has_run triple t).
Proof.
  revert pre. induction t as [|a t IH]; intros pre.
  - reflexivity.
  - destruct t as [|b [|c t]].
    + reflexivity.
    + reflexivity.
    + replace (range_count (len (a :: b :: c :: t) - 2))
        with (S (range_count (len (b :: c :: t) - 2)))
        by (unfold range_count; rewrite !len_cons;
            pose proof (len_nonneg t); lia).
      cbn [for_range_return]. rewrite test_window. cbn [bind].
      change (has_run triple (a :: b :: c :: t))
        with (triple a b c || has_run triple (b :: c :: t)).
      destruct (triple a b c); [reflexivity|]. cbn [orb].
      specialize (IH (pre ++ [a])).
      rewrite <- app_assoc in IH. cbn [app] in IH.
      rewrite len_app in IH. change (len [a]) with 1 in IH.
      exact IH.
Qed.

End Loops.

Lemma sequential_at_window (pre : str) (a b c : Z) (t : str) :
  sequential_at (pre ++ a :: b :: c :: t) (len pre) = Ok (sequential_triple a b c).
Proof.
  unfold sequential_at, sequential_triple, ord.
  destruct (getitem_window pre a b c t) as (H0 & H1 & H2).
  rewrite H1. cbn [bind]. rewrite H0. cbn [bind].
  destruct (b =? a + 1); [|reflexivity].
  rewrite H2. reflexivity.
Qed.

Lemma repeated_at_window (pre : str) (a b c : Z) (t : str) :
  repeated_at (pre ++ a :: b :: c :: t) (len pre) = Ok (repeated_triple a b c).
Proof.
  unfold repeated_at, repeated_triple.
  destruct (getitem_window pre a b c t) as (H0 & H1 & H2).
  rewrite H0. cbn [bind]. rewrite H1. cbn [bind].
  destruct (a =? b); [|reflexivity].
  rewrite H2. reflexivity.
Qed.

(** [_has_sequential_chars] never raises and decides the sequential run. *)
Lemma has_sequential_chars_ok (password : str) :
  _has_sequential_chars password = Ok (has_sequential_run password).
Proof.
  exact (for_range_windows sequential_at sequential_triple
           sequential_at_window password []).
Qed.

(** [_has_repeated_chars] never raises and decides the repeated run. *)
Lemma has_repeated_chars_ok (password : str) :
  _has_repeated_chars password = Ok (has_repeated_run password).
Proof.
  exact (for_range_windows repeated_at repeated_triple
           repeated_at_window password []).
Qed.

(** A run is present exactly when the string splits around a matching
    triple of neighbours. *)
Lemma has_run_iff (triple : Z -> Z -> Z -> bool) (s : str) :
  has_run triple s = true <->
  exists pre a b c post, s = pre ++ a :: b :: c :: post /\ triple a b c = true.
Proof.
  induction s as [|x s IH].
  - split; [discriminate|].
    intros (pre & a & b & c & post & E & _). now destruct pre.
  - cbn [has_run]. rewrite orb_true_iff, IH. split.
    + intros [H | (pre & a & b & c & post & E & T)].
      * destruct s as [|b [|c post]]; try discriminate.
        now exists [], x, b, c, post.
      * exists (x :: pre), a, b, c, post. now rewrite E.
    + intros (pre & a & b & c & post & E & T).
      destruct pre as [|y pre]; cbn [app] in E; injection E as -> ->.
      * now left.
      * right. now exists pre, a, b, c, post.
Qed.

(* ================================================================== *)
(** * The methods against their reference readings                     *)
(* ================================================================== *)

Lemma check_patterns_ok (password : str) :
  _check_patterns password = Ok (pattern_penalty password).
Proof.
  unfold _check_patterns, pattern_penalty, is_common.
  destruct (set_mem (lower password) common_passwords); [reflexivity|].
  rewrite has_sequential_chars_ok. cbn [bind].
  destruct (has_sequential_run password); [reflexivity|].
  rewrite has_repeated_chars_ok. cbn [bind].
  now destruct (has_repeated_run password).
Qed.

Lemma pattern_penalty_cases (password : str) :
  pattern_penalty password = -10 \/
  pattern_penalty password = -5 \/
  pattern_penalty password = 0.
Proof.
  unfold pattern_penalty.
  destruct (is_common password), (has_sequential_run password),
    (has_repeated_run password); auto.
Qed.

Lemma check_length_cases (password : str) :
  _check_length password = 0 \/ _check_length password = 5 \/
  _check_length password = 10 \/ _check_length password = 15.
Proof.
  unfold _check_length.
  destruct (len password <? 6), (len password <? 8), (len password <? 12); auto.
Qed.

Lemma check_character_variety_count (password : str) :
  _check_character_variety password = 5 * class_count password.
Proof.
  unfold _check_character_variety, class_count.
  destruct (re_search_class class_lower password),
    (re_search_class class_upper password),
    (re_search_class class_digit password),
    (re_search_class class_special password); reflexivity.
Qed.

Lemma class_count_bounds (password : str) : 0 <= class_count password <= 4.
Proof.
  unfold class_count.
  destruct (re_search_class class_lower password),
    (re_search_class class_upper password),
    (re_search_class class_digit password),
    (re_search_class class_special password); cbn; lia.
Qed.

Lemma append_when (fb : list string) (b : bool) (m : string) :
  (if b then append fb m else fb) = fb ++ when b m.
Proof. destruct b; cbn [when]; [reflexivity | now rewrite app_nil_r]. Qed.

Lemma closing_remark_append (fb : list string) (tier : PasswordStrength) :
  (if strength_in tier [VERY_WEAK; WEAK] then
     append fb "Password is too weak. Consider using a password manager."%string
   else if strength_eqb tier FAIR then
     append fb "Password is acceptable but could be stronger."%string
   else if strength_in tier [GOOD; STRONG; VERY_STRONG] then
     append fb "Great! This is a strong password."%string
   else fb) = fb ++ [closing_remark tier].
Proof. now destruct tier. Qed.

Lemma generate_feedback_ok (password : str) (tier : PasswordStrength) :
  _generate_feedback password tier = Ok (feedback_layout password tier).
Proof.
  unfold _generate_feedback.
  rewrite has_sequential_chars_ok, has_repeated_chars_ok. cbn [bind].
  rewrite closing_remark_append, !append_when.
  unfold feedback_layout, missing_class_messages.
  fold add_lowercase add_uppercase add_numbers add_special
       avoid_sequential avoid_repeated.
  rewrite <- !app_assoc. f_equal. f_equal.
  unfold length_message, append.
  destruct (len password <? 8); [reflexivity|].
  destruct (len password <? 12); reflexivity.
Qed.

Lemma check_password_nonempty (password : str) :
  truthy password = true ->
  check_password password =
  Ok (_create_result (_determine_strength (total_score password))
        (total_score password)
        (feedback_layout password (_determine_strength (total_score password)))).
Proof.
  intros Hne. unfold check_password. rewrite Hne. cbn [negb].
  rewrite check_patterns_ok. cbn [bind].
  rewrite generate_feedback_ok. reflexivity.
Qed.

Lemma total_score_bounds (password : str) : -10 <= total_score password <= 35.
Proof.
  unfold total_score. rewrite check_character_variety_count.
  pose proof (class_count_bounds password).
  destruct (check_length_cases password) as [H1|[H1|[H1|H1]]];
    destruct (pattern_penalty_cases password) as [H2|[H2|H2]];
    rewrite H1, H2; lia.
Qed.

(** Whatever the input, [check_password] returns a dictionary: the one of the
    empty password or the one assembled from the three sub-scores. *)
Lemma check_password_returns (password : str) :
  exists tier total fb,
    check_password password = Ok (_create_result tier total fb) /\
    tier = _determine_strength total /\
    -10 <= total <= 35.
Proof.
  destruct (truthy password) eqn:Hne.
  - eexists _, _, _. split; [now apply check_password_nonempty|].
    split; [reflexivity | apply total_score_bounds].
  - destruct password; [|discriminate].
    exists VERY_WEAK, 0, ["Password cannot be empty"%string].
    repeat split; lia.
Qed.

(** The digit class restricted to ASCII is [0-9]; every other interval of
    the table lies beyond U+007F. *)
Lemma in_ranges_above (t : list (Z * Z)) (bound c : Z) :
  forallb (fun r => bound <=? fst r) t = true -> c < bound ->
  in_ranges t c = false.
Proof.
  intros Ht Hc. induction t as [|[lo hi] t IH]; [reflexivity|].
  cbn [forallb fst] in Ht. apply andb_true_iff in Ht as [Hlo Ht].
  cbn [in_ranges existsb fst snd]. fold (in_ranges t c). rewrite (IH Ht).
  unfold in_range. destruct (lo <=? c) eqn:E; [lia | reflexivity].
Qed.

Lemma class_digit_ascii (c : Z) :
  c < 128 -> class_digit c = in_range 48 57 c.
Proof.
  intros Hc. unfold class_digit.
  change decimal_ranges with ((48, 57) :: tl decimal_ranges).
  unfold in_ranges. cbn [existsb fst snd].
  fold (in_ranges (tl decimal_ranges) c).
  rewrite (in_ranges_above (tl decimal_ranges) 128 c eq_refl Hc).
  apply orb_false_r.
Qed.

(** A password none of whose characters belongs to a class scores no
    variety point. *)
Lemma re_search_class_none (cls : Z -> bool) (s : str) :
  (forall c, In c s -> cls c = false) -> re_search_class cls s = false.
Proof.
  intros H. unfold re_search_class. induction s as [|c s IH]; [reflexivity|].
  cbn [existsb]. rewrite (H c) by now left.
  apply IH. intros d Hd. apply H. now right.
Qed.

Lemma check_character_variety_none (password : str) :
  (forall c, In c password ->
     class_lower c = false /\ class_upper c = false /\
     class_digit c = false /\ class_special c = false) ->
  _check_character_variety password = 0.
Proof.
  intros H. unfold _check_character_variety.
  rewrite !re_search_class_none; [reflexivity| | | |];
    intros c Hc; now destruct (H c Hc) as (? & ? & ? & ?).
Qed.

(* ================================================================== *)
(** * Properties of the checker                                        *)
(* ================================================================== *)

(** C1. For every string, [check_password] returns a result (the loops end,
    no subscription leaves the string, nothing raises) and the score of that
    result lies in the closed range from -10 to 50. *)
Theorem C1_check_password_total_score_in_range (s : str) :
  exists r, check_password s = Ok r /\ -10 <= score r <= 50.
Proof.
  destruct (check_password_returns s) as (tier & total & fb & E & _ & B).
  exists (_create_result tier total fb). split; [exact E|].
  cbn [score _create_result]. lia.
Qed.

(** C2, as the code has it.  ["abc123"] belongs to the common passwords, and
    that check comes first: its pattern sub-score is the common-password
    penalty -10 and not the sequential-run penalty -5.  Its score is 5, which
    is exactly 10 below the score of any password of the same length and the
    same character variety that carries no pattern penalty. *)
Theorem C2_abc123_common_password_penalty (q : str) :
  len q = len (lit "abc123") ->
  _check_character_variety q = _check_character_variety (lit "abc123") ->
  _check_patterns q = Ok 0 ->
  _check_patterns (lit "abc123") = Ok (-10) /\
  exists r rq,
    check_password (lit "abc123") = Ok r /\
    check_password q = Ok rq /\
    score r = 5 /\
    score r = score rq - 10.
Proof.
  intros Hlen Hvar Hpat. split; [reflexivity|].
  assert (Hne : truthy q = true) by (destruct q; [discriminate | reflexivity]).
  rewrite check_patterns_ok in Hpat. injection Hpat as Hpat.
  eexists _, _. split; [reflexivity|].
  split; [now apply check_password_nonempty|].
  cbn [score _create_result]. split; [reflexivity|].
  unfold total_score, _check_length. rewrite Hlen, Hvar, Hpat. reflexivity.
Qed.

(** The amended C2 at the non-sequential password ["abd135"]. *)
Lemma C2_abc123_common_password_penalty_witness :
  len (lit "abd135") = len (lit "abc123") /\
  _check_character_variety (lit "abd135")
    = _check_character_variety (lit "abc123") /\
  _check_patterns (lit "abd135") = Ok 0 /\
  (_check_patterns (lit "abc123") = Ok (-10) /\
   exists r rq,
     check_password (lit "abc123") = Ok r /\
     check_password (lit "abd135") = Ok rq /\
     score r = 5 /\
     score r = score rq - 10).
Proof.
  repeat (split; [reflexivity|]).
  apply (C2_abc123_common_password_penalty (lit "abd135")); reflexivity.
Defined.

(** C2 as stated fails: the pattern sub-score of ["abc123"] is -10, and its
    score is 10 (not 5) below that of ["abd135"], a password of the same
    length and variety without a sequential run. *)
Lemma C2_abc123_sequential_penalty_counterexample :
  _check_patterns (lit "abc123") = Ok (-10) /\
  has_sequential_run (lit "abd135") = false /\
  len (lit "abd135") = len (lit "abc123") /\
  _check_character_variety (lit "abd135")
    = _check_character_variety (lit "abc123") /\
  exists r rq,
    check_password (lit "abc123") = Ok r /\
    check_password (lit "abd135") = Ok rq /\
    score r = 5 /\ score rq = 15.
Proof.
  repeat (split; [reflexivity|]).
  eexists _, _. repeat split; reflexivity.
Qed.

(** C3 at a non-ASCII digit.  ARABIC-INDIC DIGIT THREE (U+0663) lies outside
    a-z, A-Z, 0-9 and the special characters, yet [\d] matches it: the
    password made of that one character earns the five points of the digit
    class and is not told to add numbers. *)
Theorem C3_non_ascii_digit_scores_as_digit :
  wf_str [0x663] = true /\
  class_lower 0x663 = false /\
  class_upper 0x663 = false /\
  in_range 48 57 0x663 = false /\
  class_special 0x663 = false /\
  re_search_class class_digit [0x663] = true /\
  _check_character_variety [0x663] = 5 /\
  exists r,
    check_password [0x663] = Ok r /\
    score r = 5 /\
    existsb (String.eqb add_numbers) (feedback r) = false.
Proof.
  repeat (split; [reflexivity|]).
  eexists. repeat split; reflexivity.
Qed.

(** C4. The tier of every result is [_determine_strength] of its score, and
    [_determine_strength] buckets by upper bound: below 5 Very Weak, below 10
    Weak, below 20 Fair, below 30 Good, below 40 Strong, Very Strong from 40
    on. *)
Theorem C4_tier_bucketed_by_upper_bound (s : str) (sc : Z) :
  (exists r, check_password s = Ok r /\
             strength r = value (_determine_strength (score r))) /\
  (_determine_strength sc = VERY_WEAK <-> sc < 5) /\
  (_determine_strength sc = WEAK <-> 5 <= sc < 10) /\
  (_determine_strength sc = FAIR <-> 10 <= sc < 20) /\
  (_determine_strength sc = GOOD <-> 20 <= sc < 30) /\
  (_determine_strength sc = STRONG <-> 30 <= sc < 40) /\
  (_determine_strength sc = VERY_STRONG <-> 40 <= sc).
Proof.
  split.
  - destruct (check_password_returns s) as (tier & total & fb & E & T & _).
    exists (_create_result tier total fb). split; [exact E|].
    cbn [strength score _create_result]. now rewrite T.
  - unfold _determine_strength.
    destruct (sc <? 5) eqn:H5; [repeat split; intros; (lia || discriminate)|].
    destruct (sc <? 10) eqn:H10; [repeat split; intros; (lia || discriminate)|].
    destruct (sc <? 20) eqn:H20; [repeat split; intros; (lia || discriminate)|].
    destruct (sc <? 30) eqn:H30; [repeat split; intros; (lia || discriminate)|].
    destruct (sc <? 40) eqn:H40; repeat split; intros; (lia || discriminate).
Qed.

(** C5. The empty password gets score 0, tier Very Weak, the single message
    "Password cannot be empty" and a false [is_strong]. *)
Theorem C5_empty_password_result :
  check_password (lit "") =
  Ok {| strength := "Very Weak";
        score := 0;
        feedback := ["Password cannot be empty"%string];
        is_strong := false |}.
Proof. reflexivity. Qed.

(** C6. [_check_patterns] returns one penalty only, the first that matches
    in the order common password (-10), sequential run (-5), repeated run
    (-5): a common password gets -10 whatever runs it contains, and a
    password with both kinds of run gets -5, not -10. *)
Theorem C6_single_pattern_penalty_first_match (password : str) :
  exists penalty,
    _check_patterns password = Ok penalty /\
    penalty = (if set_mem (lower password) common_passwords then -10
               else if has_sequential_run password then -5
               else if has_repeated_run password then -5
               else 0) /\
    (penalty = -10 \/ penalty = -5 \/ penalty = 0) /\
    (penalty = -10 <-> set_mem (lower password) common_passwords = true).
Proof.
  exists (pattern_penalty password). split; [apply check_patterns_ok|].
  split; [reflexivity|]. split; [apply pattern_penalty_cases|].
  unfold pattern_penalty, is_common.
  destruct (set_mem (lower password) common_passwords),
    (has_sequential_run password), (has_repeated_run password);
    split; intros; (reflexivity || discriminate).
Qed.

(** C7. For a non-empty password the feedback list is, in this order: one
    length message; one "add" message per absent character class (lowercase,
    uppercase, digit, special); the sequential warning iff the password has a
    sequential run, whether or not the common-password check matched; the
    repeated warning iff it has a repeated run; one closing remark, that of
    the tier of the result. *)
Theorem C7_feedback_order (password : str) :
  truthy password = true ->
  exists r tier,
    check_password password = Ok r /\
    strength r = value tier /\
    feedback r =
      [length_message (len password)] ++
      (when (negb (re_search_class class_lower password)) add_lowercase ++
       when (negb (re_search_class class_upper password)) add_uppercase ++
       when (negb (re_search_class class_digit password)) add_numbers ++
       when (negb (re_search_class class_special password)) add_special) ++
      when (has_sequential_run password) avoid_sequential ++
      when (has_repeated_run password) avoid_repeated ++
      [closing_remark tier].
Proof.
  intros Hne. eexists _, _.
  split; [now apply check_password_nonempty|].
  split; reflexivity.
Qed.

(** C7 at ["abc123"], a common password that also has a sequential run. *)
Lemma C7_feedback_order_witness :
  truthy (lit "abc123") = true /\
  exists r tier,
    check_password (lit "abc123") = Ok r /\
    strength r = value tier /\
    feedback r =
      [length_message (len (lit "abc123"))] ++
      (when (negb (re_search_class class_lower (lit "abc123"))) add_lowercase ++
       when (negb (re_search_class class_upper (lit "abc123"))) add_uppercase ++
       when (negb (re_search_class class_digit (lit "abc123"))) add_numbers ++
       when (negb (re_search_class class_special (lit "abc123"))) add_special) ++
      when (has_sequential_run (lit "abc123")) avoid_sequential ++
      when (has_repeated_run (lit "abc123")) avoid_repeated ++
      [closing_remark tier].
Proof.
  split; [reflexivity|].
  apply (C7_feedback_order (lit "abc123")). reflexivity.
Defined.

(** C8. In every result [is_strong] holds exactly when the tier is Good,
    Strong or Very Strong. *)
Theorem C8_is_strong_iff_tier_good_or_better (s : str) :
  exists r,
    check_password s = Ok r /\
    (is_strong r = true <->
     strength r = value GOOD \/ strength r = value STRONG \/
     strength r = value VERY_STRONG).
Proof.
  destruct (check_password_returns s) as (tier & total & fb & E & _ & _).
  exists (_create_result tier total fb). split; [exact E|].
  cbn [is_strong strength _create_result].
  destruct tier; cbn; split; intros H; auto; try discriminate;
    destruct H as [H | [H | H]]; discriminate.
Qed.

(** C9. The length sub-score does not decrease when the password gets
    longer; it is 0 below 6 characters, 5 for 6 or 7, 10 for 8 to 11 and 15
    from 12 characters on. *)
Theorem C9_length_score_monotone (p q : str) :
  len p <= len q ->
  _check_length p <= _check_length q /\
  (_check_length p = 0 <-> len p < 6) /\
  (_check_length p = 5 <-> 6 <= len p <= 7) /\
  (_check_length p = 10 <-> 8 <= len p <= 11) /\
  (_check_length p = 15 <-> 12 <= len p).
Proof.
  intros Hle. unfold _check_length.
  destruct (len p <? 6) eqn:P6; destruct (len p <? 8) eqn:P8;
    destruct (len p <? 12) eqn:P12;
    destruct (len q <? 6) eqn:Q6; destruct (len q <? 8) eqn:Q8;
    destruct (len q <? 12) eqn:Q12;
    repeat split; intros; lia.
Qed.

(** C9 at a password of 6 and one of 12 characters. *)
Lemma C9_length_score_monotone_witness :
  len (lit "short1") <= len (lit "longpassword") /\
  (_check_length (lit "short1") <= _check_length (lit "longpassword") /\
   (_check_length (lit "short1") = 0 <-> len (lit "short1") < 6) /\
   (_check_length (lit "short1") = 5 <-> 6 <= len (lit "short1") <= 7) /\
   (_check_length (lit "short1") = 10 <-> 8 <= len (lit "short1") <= 11) /\
   (_check_length (lit "short1") = 15 <-> 12 <= len (lit "short1"))).
Proof.
  split; [vm_compute; discriminate|].
  apply (C9_length_score_monotone (lit "short1") (lit "longpassword")).
  vm_compute; discriminate.
Defined.

(** C10. The length sub-score is at most 15, the variety sub-score at most
    20 and the pattern sub-score at most 0, so no score exceeds 35 and no
    result has the tier Very Strong. *)
Theorem C10_score_at_most_35_never_very_strong (s : str) :
  _check_length s <= 15 /\
  _check_character_variety s <= 20 /\
  (exists penalty, _check_patterns s = Ok penalty /\ penalty <= 0) /\
  exists r,
    check_password s = Ok r /\
    score r <= 35 /\
    strength r <> value VERY_STRONG.
Proof.
  split; [destruct (check_length_cases s) as [H|[H|[H|H]]]; rewrite H; lia|].
  split; [rewrite check_character_variety_count;
          pose proof (class_count_bounds s); lia|].
  split.
  - exists (pattern_penalty s). split; [apply check_patterns_ok|].
    destruct (pattern_penalty_cases s) as [H|[H|H]]; rewrite H; lia.
  - destruct (check_password_returns s) as (tier & total & fb & E & T & B).
    exists (_create_result tier total fb). split; [exact E|].
    cbn [score strength _create_result]. split; [lia|].
    subst tier. unfold _determine_strength.
    destruct (total <? 5); [discriminate|].
    destruct (total <? 10); [discriminate|].
    destruct (total <? 20); [discriminate|].
    destruct (total <? 30); [discriminate|].
    destruct (total <? 40) eqn:H40; [discriminate | lia].
Qed.

(* ================================================================== *)
(** * Facts about [str.lower]                                          *)
(* ================================================================== *)

Lemma str_eqb_eq (a b : str) : str_eqb a b = true <-> a = b.
Proof.
  revert b. induction a as [|x a IH]; intros [|y b]; cbn [str_eqb];
    try (split; (reflexivity || discriminate)).
  rewrite andb_true_iff, Z.eqb_eq, IH. split.
  - now intros [-> ->].
  - intros E. now injection E.
Qed.

Lemma set_mem_In (s : str) (set : list str) :
  set_mem s set = true <-> In s set.
Proof.
  unfold set_mem. rewrite existsb_exists. split.
  - intros (w & Hw & E). apply str_eqb_eq in E. now subst.
  - intros H. exists s. split; [exact H | now apply str_eqb_eq].
Qed.

(** A hit in the lowercase table comes from an entry whose interval holds
    the code point. *)
Lemma lookup_lowercase_entry (t : list (Z * Z * Z * Z)) (c l : Z) :
  lookup_lowercase t c = Some l ->
  exists lo hi step delta,
    In (lo, hi, step, delta) t /\ in_range lo hi c = true /\ l = c + delta.
Proof.
  induction t as [|[[[lo hi] step] delta] t IH]; [discriminate|].
  cbn [lookup_lowercase].
  destruct (in_range lo hi c && ((c - lo) mod step =? 0)) eqn:E.
  - intros [= <-]. apply andb_true_iff in E as [E _].
    exists lo, hi, step, delta. repeat split; [now left | exact E].
  - intros H. destruct (IH H) as (lo' & hi' & st' & d' & Hin & Hr & El).
    exists lo', hi', st', d'. repeat split; [now right | exact Hr | exact El].
Qed.

Lemma lookup_lowercase_above (t : list (Z * Z * Z * Z)) (bound c : Z) :
  forallb (fun e => bound <=? fst (fst (fst e))) t = true -> c < bound ->
  lookup_lowercase t c = None.
Proof.
  intros Ht Hc. induction t as [|[[[lo hi] step] delta] t IH]; [reflexivity|].
  cbn [forallb fst] in Ht. apply andb_true_iff in Ht as [Hlo Ht].
  cbn [lookup_lowercase]. unfold in_range.
  destruct (lo <=? c) eqn:E; [lia|]. cbn [andb]. now apply IH.
Qed.

Lemma lowercase_table_images : forallb entry_image_ok lowercase_table = true.
Proof. vm_compute. reflexivity. Qed.

(** An ASCII code point other than [i] and [k] in the lowercase form of [c]
    is [c] itself or the lowercase of the capital letter [c]. *)
Lemma to_lower_full_ascii_image (c x : Z) :
  In x (to_lower_full c) -> x < 128 -> x <> 105 -> x <> 107 ->
  c = x \/ (in_range 65 90 c = true /\ x = c + 32).
Proof.
  unfold to_lower_full. intros Hin Hx Hi Hk.
  destruct (c =? 0x130).
  { destruct Hin as [E | [E | []]]; lia. }
  destruct (lookup_lowercase lowercase_table c) as [l|] eqn:L.
  - destruct Hin as [E | []]. subst l.
    destruct (lookup_lowercase_entry _ _ _ L)
      as (lo & hi & step & delta & Hin & Hr & E).
    pose proof lowercase_table_images as T.
    rewrite forallb_forall in T. specialize (T _ Hin).
    cbn [entry_image_ok] in T. unfold in_range in Hr.
    apply andb_true_iff in Hr as [Hlo Hhi].
    apply orb_true_iff in T as [T | T];
      [apply orb_true_iff in T as [T | T]|].
    + apply andb_true_iff in T as [T Td].
      apply andb_true_iff in T as [Tl Th].
      right. split; [unfold in_range; apply andb_true_iff; lia | lia].
    + apply andb_true_iff in T as [T Td].
      apply andb_true_iff in T as [Tl Th]. lia.
    + lia.
  - destruct Hin as [E | []]. now left.
Qed.

Lemma lower_ucs4_ascii_image (before after : str) (c x : Z) :
  In x (lower_ucs4 before c after) -> x < 128 -> x <> 105 -> x <> 107 ->
  c = x \/ (in_range 65 90 c = true /\ x = c + 32).
Proof.
  unfold lower_ucs4. destruct (c =? 0x3A3).
  - unfold handle_capital_sigma. intros [E | []] Hx.
    repeat match goal with
           | H : context [if ?b then _ else _] |- _ => destruct b
           | H : context [match ?o with Some _ => _ | None => _ end] |- _ =>
               destruct o
           end; lia.
  - apply to_lower_full_ascii_image.
Qed.

Lemma lower_ucs4_nonempty (before after : str) (c : Z) :
  (1 <= List.length (lower_ucs4 before c after))%nat.
Proof.
  unfold lower_ucs4, to_lower_full.
  destruct (c =? 0x3A3); [cbn; lia|].
  destruct (c =? 0x130); [cbn; lia|].
  destruct (lookup_lowercase lowercase_table c); cbn; lia.
Qed.

(** Lowercasing never shortens a string. *)
Lemma do_lower_length (s before : str) : len s <= len (do_lower before s).
Proof.
  revert before. induction s as [|c s IH]; intros before.
  - cbn. lia.
  - cbn [do_lower]. rewrite len_app, len_cons.
    specialize (IH (c :: before)).
    pose proof (lower_ucs4_nonempty before s c). unfold len in *. lia.
Qed.

(** Every code point of the lowercase string comes from a character of the
    original. *)
Lemma do_lower_In (s before : str) (x : Z) :
  In x (do_lower before s) ->
  exists b a c, In c s /\ In x (lower_ucs4 b c a).
Proof.
  revert before. induction s as [|c s IH]; intros before; [intros []|].
  cbn [do_lower]. rewrite in_app_iff. intros [H | H].
  - exists before, s, c. split; [now left | exact H].
  - destruct (IH _ H) as (b & a & d & Hd & Hx).
    exists b, a, d. split; [now right | exact Hx].
Qed.

(** On ASCII the table reduces to the shift of A-Z. *)
Lemma to_lower_full_ascii (c : Z) :
  is_ascii c -> to_lower_full c = [ascii_lower c].
Proof.
  unfold is_ascii. intros Hc. unfold to_lower_full, ascii_lower.
  destruct (c =? 0x130) eqn:E; [lia|].
  change lowercase_table with ((65, 90, 1, 32) :: tl lowercase_table).
  cbn [lookup_lowercase]. rewrite Z.mod_1_r. cbn [Z.eqb]. rewrite andb_true_r.
  destruct (in_range 65 90 c); [reflexivity|].
  now rewrite (lookup_lowercase_above (tl lowercase_table) 128 c eq_refl Hc).
Qed.

Lemma do_lower_ascii (s before : str) :
  Forall is_ascii s -> do_lower before s = map ascii_lower s.
Proof.
  intros H. revert before. induction H as [|c s Hc Hs IH]; intros before.
  - reflexivity.
  - cbn [do_lower map]. rewrite IH. unfold lower_ucs4.
    destruct (c =? 0x3A3) eqn:E; [unfold is_ascii in Hc; lia|].
    now rewrite to_lower_full_ascii.
Qed.

(** A character that is ASCII and not a capital letter survives [lower]. *)
Lemma do_lower_keeps (s before : str) (c : Z) :
  In c s -> is_ascii c -> in_range 65 90 c = false ->
  In c (do_lower before s).
Proof.
  intros Hin Hc Hu. revert before.
  induction s as [|d s IH]; intros before; [destruct Hin|].
  cbn [do_lower]. apply in_or_app. destruct Hin as [-> | Hin].
  - left. unfold lower_ucs4.
    destruct (c =? 0x3A3) eqn:E; [unfold is_ascii in Hc; lia|].
    rewrite to_lower_full_ascii by exact Hc.
    unfold ascii_lower. rewrite Hu. now left.
  - right. now apply IH.
Qed.

(* ================================================================== *)
(** * Further properties of the checker                                *)
(* ================================================================== *)

Lemma check_password_result_of (password : str) :
  check_password password = Ok (result_of password).
Proof.
  unfold result_of. destruct (truthy password) eqn:T.
  - now apply check_password_nonempty.
  - unfold check_password. now rewrite T.
Qed.

Lemma common_passwords_shape (w : str) :
  In w common_passwords -> common_shape w = true.
Proof.
  assert (H : forallb common_shape common_passwords = true)
    by (vm_compute; reflexivity).
  rewrite forallb_forall in H. apply H.
Qed.

Lemma is_common_length (password : str) :
  is_common password = true -> 1 <= len password <= 11.
Proof.
  unfold is_common. rewrite set_mem_In. intros Hin.
  apply common_passwords_shape in Hin. unfold common_shape in Hin.
  apply andb_true_iff in Hin as [Hin _].
  apply andb_true_iff in Hin as [Hlen Hhd].
  pose proof (do_lower_length password []) as Hlow.
  fold (lower password) in Hlow. split; [|lia].
  destruct password; [discriminate Hhd|]. rewrite len_cons.
  pose proof (len_nonneg password). lia.
Qed.

(** The first character of a common password, in whatever case it was
    typed, belongs to the lowercase, uppercase or digit class. *)
Lemma is_common_first_char (password : str) :
  is_common password = true ->
  exists c rest, password = c :: rest /\
    (class_lower c || class_upper c || class_digit c) = true.
Proof.
  unfold is_common. rewrite set_mem_In. intros Hin.
  apply common_passwords_shape in Hin. unfold common_shape in Hin.
  apply andb_true_iff in Hin as [Hin _].
  apply andb_true_iff in Hin as [_ Hhd].
  destruct password as [|c rest]; [discriminate Hhd|].
  exists c, rest. split; [reflexivity|].
  unfold lower in Hhd. cbn [do_lower] in Hhd.
  pose proof (lower_ucs4_nonempty [] rest c) as Hne.
  pose proof (lower_ucs4_ascii_image [] rest c) as Himg.
  destruct (lower_ucs4 [] c rest) as [|x t]; [cbn in Hne; lia|].
  cbn [app] in Hhd.
  apply andb_true_iff in Hhd as [Hhd Hcls].
  apply andb_true_iff in Hhd as [Hhd Hk].
  apply andb_true_iff in Hhd as [Hx Hi].
  apply negb_true_iff in Hi, Hk.
  destruct (Himg x (or_introl eq_refl)) as [-> | [Hup _]]; try lia.
  - apply orb_true_iff in Hcls as [-> | ->];
      [reflexivity | now rewrite !orb_true_r].
  - unfold class_upper. rewrite Hup. now rewrite orb_true_r.
Qed.

Lemma class_special_ascii (c : Z) :
  class_special c = true -> is_ascii c /\ in_range 65 90 c = false.
Proof.
  unfold class_special. rewrite existsb_exists.
  intros (x & Hx & E). apply Z.eqb_eq in E. subst x.
  assert (H : forallb (fun x => (x <? 128) && negb (in_range 65 90 x))
                special_characters = true) by (vm_compute; reflexivity).
  rewrite forallb_forall in H. specialize (H c Hx).
  apply andb_true_iff in H as [H1 H2]. apply negb_true_iff in H2.
  unfold is_ascii. split; [lia | exact H2].
Qed.

(** A common password has no special character, however it was typed. *)
Lemma is_common_no_special (password : str) :
  is_common password = true ->
  re_search_class class_special password = false.
Proof.
  unfold is_common. rewrite set_mem_In. intros Hin.
  apply common_passwords_shape in Hin. unfold common_shape in Hin.
  apply andb_true_iff in Hin as [_ Hsp]. apply negb_true_iff in Hsp.
  destruct (re_search_class class_special password) eqn:E; [|reflexivity].
  unfold re_search_class in E. apply existsb_exists in E as (c & Hc & Hs).
  destruct (class_special_ascii c Hs) as [Ha Hu].
  assert (Hl : In c (lower password)) by now apply do_lower_keeps.
  assert (Hs' : re_search_class class_special (lower password) = true)
    by (apply existsb_exists; now exists c).
  congruence.
Qed.

Lemma b2z_range (b : bool) : 0 <= Z.b2z b <= 1.
Proof. destruct b; cbn; lia. Qed.

Lemma re_search_class_head (cls : Z -> bool) (c : Z) (rest : str) :
  cls c = true -> re_search_class cls (c :: rest) = true.
Proof. intros H. unfold re_search_class. cbn [existsb]. now rewrite H. Qed.

Lemma class_count_head (c : Z) (rest : str) :
  (class_lower c || class_upper c || class_digit c) = true ->
  1 <= class_count (c :: rest).
Proof.
  intros H. unfold class_count.
  pose proof (b2z_range (re_search_class class_lower (c :: rest))).
  pose proof (b2z_range (re_search_class class_upper (c :: rest))).
  pose proof (b2z_range (re_search_class class_digit (c :: rest))).
  pose proof (b2z_range (re_search_class class_special (c :: rest))).
  apply orb_true_iff in H as [H | H]; [apply orb_true_iff in H as [H | H]|];
    apply (re_search_class_head _ c rest) in H; rewrite H in *;
    cbn [Z.b2z]; lia.
Qed.

Lemma total_score_lower_bound (password : str) : -5 <= total_score password.
Proof.
  unfold total_score. rewrite check_character_variety_count.
  pose proof (class_count_bounds password) as Hc.
  assert (Hl : 0 <= _check_length password)
    by (destruct (check_length_cases password) as [H|[H|[H|H]]];
        rewrite H; lia).
  unfold pattern_penalty.
  destruct (is_common password) eqn:C.
  - destruct (is_common_first_char _ C) as (c & rest & -> & Hcls).
    pose proof (class_count_head c rest Hcls). lia.
  - destruct (has_sequential_run password), (has_repeated_run password); lia.
Qed.

Lemma total_score_multiple_of_5 (password : str) :
  exists k, total_score password = 5 * k.
Proof.
  unfold total_score. rewrite check_character_variety_count.
  assert (Hl : exists a, _check_length password = 5 * a).
  { destruct (check_length_cases password) as [H|[H|[H|H]]]; rewrite H;
      [exists 0 | exists 1 | exists 2 | exists 3]; reflexivity. }
  assert (Hp : exists b, pattern_penalty password = 5 * b).
  { destruct (pattern_penalty_cases password) as [H|[H|H]]; rewrite H;
      [exists (-2) | exists (-1) | exists 0]; reflexivity. }
  destruct Hl as (a & ->), Hp as (b & ->).
  exists (a + class_count password + b). lia.
Qed.

(** X1. [_has_sequential_chars] never raises, and it answers [True] exactly
    when the password holds three neighbouring characters with code points
    [a], [a+1], [a+2]. *)
Theorem X1_has_sequential_chars_decides (password : str) :
  exists b,
    _has_sequential_chars password = Ok b /\
    (b = true <->
     exists pre a post, password = pre ++ a :: (a + 1) :: (a + 2) :: post).
Proof.
  exists (has_sequential_run password).
  split; [apply has_sequential_chars_ok|].
  unfold has_sequential_run. rewrite has_run_iff. split.
  - intros (pre & a & b & c & post & E & T).
    unfold sequential_triple in T. apply andb_true_iff in T as [T1 T2].
    apply Z.eqb_eq in T1, T2. subst b c. now exists pre, a, post.
  - intros (pre & a & post & E).
    exists pre, a, (a + 1), (a + 2), post. split; [exact E|].
    unfold sequential_triple. now rewrite !Z.eqb_refl.
Qed.

(** X2. [_has_repeated_chars] never raises, and it answers [True] exactly
    when the password holds the same character three times in a row. *)
Theorem X2_has_repeated_chars_decides (password : str) :
  exists b,
    _has_repeated_chars password = Ok b /\
    (b = true <-> exists pre a post, password = pre ++ a :: a :: a :: post).
Proof.
  exists (has_repeated_run password).
  split; [apply has_repeated_chars_ok|].
  unfold has_repeated_run. rewrite has_run_iff. split.
  - intros (pre & a & b & c & post & E & T).
    unfold repeated_triple in T. apply andb_true_iff in T as [T1 T2].
    apply Z.eqb_eq in T1, T2. subst b c. now exists pre, a, post.
  - intros (pre & a & post & E).
    exists pre, a, a, a, post. split; [exact E|].
    unfold repeated_triple. now rewrite !Z.eqb_refl.
Qed.

(** X3. A run is found wherever it stands: once a password has a sequential
    (or repeated) run, so has every password obtained by adding characters
    in front of it and behind it. *)
Theorem X3_runs_survive_extension (pre password post : str) :
  (_has_sequential_chars password = Ok true ->
   _has_sequential_chars (pre ++ password ++ post) = Ok true) /\
  (_has_repeated_chars password = Ok true ->
   _has_repeated_chars (pre ++ password ++ post) = Ok true).
Proof.
  assert (H : forall triple, has_run triple password = true ->
                has_run triple (pre ++ password ++ post) = true).
  { intros triple. rewrite !has_run_iff.
    intros (p & a & b & c & q & -> & T).
    exists (pre ++ p), a, b, c, (q ++ post). split; [|exact T].
    now rewrite <- !app_assoc. }
  rewrite !has_sequential_chars_ok, !has_repeated_chars_ok.
  split; intros [= E]; f_equal; now apply H.
Qed.

(** X3 around ["abc"] and around ["aaa"]. *)
Lemma X3_runs_survive_extension_witness :
  _has_sequential_chars (lit "abc") = Ok true /\
  _has_sequential_chars (lit "x" ++ lit "abc" ++ lit "!") = Ok true /\
  _has_repeated_chars (lit "aaa") = Ok true /\
  _has_repeated_chars (lit "Q" ++ lit "aaa" ++ lit "7") = Ok true.
Proof.
  split; [reflexivity|]. split.
  - apply (proj1 (X3_runs_survive_extension (lit "x") (lit "abc") (lit "!"))).
    reflexivity.
  - split; [reflexivity|].
    apply (proj2 (X3_runs_survive_extension (lit "Q") (lit "aaa") (lit "7"))).
    reflexivity.
Defined.

(** X4. Every score is a multiple of 5 between -5 and 35: the penalty of -10
    only falls on passwords that own at least one character class. *)
Theorem X4_score_multiple_of_5_from_minus_5_to_35 (s : str) :
  exists r k,
    check_password s = Ok r /\ score r = 5 * k /\ -1 <= k <= 7.
Proof.
  exists (result_of s).
  assert (H : exists k, score (result_of s) = 5 * k /\
                        -5 <= score (result_of s) <= 35).
  { unfold result_of. destruct (truthy s); cbn [score _create_result].
    - destruct (total_score_multiple_of_5 s) as (k & E). exists k.
      pose proof (total_score_bounds s). pose proof (total_score_lower_bound s).
      split; [exact E | lia].
    - exists 0. split; [reflexivity | lia]. }
  destruct H as (k & E & B). exists k.
  split; [apply check_password_result_of|]. split; [exact E | lia].
Qed.

(** X5. A password of 12 characters or more is never taken for a common
    password, scores at least 10 and is rated Fair, Good or Strong. *)
Theorem X5_long_password_at_least_fair (password : str) :
  12 <= len password ->
  exists r,
    check_password password = Ok r /\
    set_mem (lower password) common_passwords = false /\
    10 <= score r /\
    (strength r = value FAIR \/ strength r = value GOOD \/
     strength r = value STRONG).
Proof.
  intros Hlen.
  assert (Hc : is_common password = false).
  { destruct (is_common password) eqn:C; [|reflexivity].
    apply is_common_length in C. lia. }
  assert (Hne : truthy password = true)
    by (destruct password; [cbn in Hlen; lia | reflexivity]).
  exists (result_of password). split; [apply check_password_result_of|].
  split; [exact Hc|].
  unfold result_of. rewrite Hne. cbn [score strength _create_result].
  pose proof (total_score_bounds password) as Hub.
  assert (Hlb : 10 <= total_score password).
  { unfold total_score. rewrite check_character_variety_count.
    pose proof (class_count_bounds password).
    unfold pattern_penalty. rewrite Hc. unfold _check_length.
    destruct (len password <? 6) eqn:L6; [lia|].
    destruct (len password <? 8) eqn:L8; [lia|].
    destruct (len password <? 12) eqn:L12; [lia|].
    destruct (has_sequential_run password), (has_repeated_run password); lia. }
  split; [exact Hlb|].
  unfold _determine_strength.
  destruct (total_score password <? 5) eqn:T5; [lia|].
  destruct (total_score password <? 10) eqn:T10; [lia|].
  destruct (total_score password <? 20); [now left|].
  destruct (total_score password <? 30); [right; now left|].
  destruct (total_score password <? 40) eqn:T40; [right; now right | lia].
Qed.

(** X5 at a password of 12 equal letters. *)
Lemma X5_long_password_at_least_fair_witness :
  12 <= len (lit "aaaaaaaaaaaa") /\
  exists r,
    check_password (lit "aaaaaaaaaaaa") = Ok r /\
    set_mem (lower (lit "aaaaaaaaaaaa")) common_passwords = false /\
    10 <= score r /\
    (strength r = value FAIR \/ strength r = value GOOD \/
     strength r = value STRONG).
Proof.
  split; [vm_compute; discriminate|].
  apply (X5_long_password_at_least_fair (lit "aaaaaaaaaaaa")).
  vm_compute; discriminate.
Defined.

(** X6. A password that matches a common password, in any capitalisation,
    has between 1 and 11 characters and no special character; it scores at
    most 15 and is never reported strong. *)
Theorem X6_common_password_never_strong (password : str) :
  set_mem (lower password) common_passwords = true ->
  exists r,
    check_password password = Ok r /\
    1 <= len password <= 11 /\
    re_search_class class_special password = false /\
    score r <= 15 /\
    is_strong r = false.
Proof.
  intros C. fold (is_common password) in C.
  pose proof (is_common_length _ C) as Hlen.
  pose proof (is_common_no_special _ C) as Hsp.
  assert (Hne : truthy password = true)
    by (destruct password; [cbn in Hlen; lia | reflexivity]).
  exists (result_of password). split; [apply check_password_result_of|].
  split; [exact Hlen|]. split; [exact Hsp|].
  unfold result_of. rewrite Hne. cbn [score is_strong _create_result].
  assert (Hub : total_score password <= 15).
  { unfold total_score, pattern_penalty. rewrite C.
    rewrite check_character_variety_count. unfold class_count. rewrite Hsp.
    pose proof (b2z_range (re_search_class class_lower password)).
    pose proof (b2z_range (re_search_class class_upper password)).
    pose proof (b2z_range (re_search_class class_digit password)).
    cbn [Z.b2z]. unfold _check_length.
    destruct (len password <? 6); [lia|].
    destruct (len password <? 8); [lia|].
    destruct (len password <? 12) eqn:L12; lia. }
  split; [exact Hub|].
  unfold _determine_strength.
  destruct (total_score password <? 5); [reflexivity|].
  destruct (total_score password <? 10); [reflexivity|].
  destruct (total_score password <? 20) eqn:T20; [reflexivity | lia].
Qed.

(** X6 at ["PassWord123"]. *)
Lemma X6_common_password_never_strong_witness :
  set_mem (lower (lit "PassWord123")) common_passwords = true /\
  exists r,
    check_password (lit "PassWord123") = Ok r /\
    1 <= len (lit "PassWord123") <= 11 /\
    re_search_class class_special (lit "PassWord123") = false /\
    score r <= 15 /\
    is_strong r = false.
Proof.
  split; [reflexivity|].
  apply (X6_common_password_never_strong (lit "PassWord123")). reflexivity.
Defined.

(** X7. A result is reported strong exactly when its score is 20 or more. *)
Theorem X7_is_strong_iff_score_at_least_20 (s : str) :
  exists r, check_password s = Ok r /\ (is_strong r = true <-> 20 <= score r).
Proof.
  destruct (check_password_returns s) as (tier & total & fb & E & T & B).
  exists (_create_result tier total fb). split; [exact E|].
  cbn [is_strong score _create_result]. subst tier.
  unfold _determine_strength.
  destruct (total <? 5) eqn:T5;
    [split; intros; first [lia | discriminate]|].
  destruct (total <? 10) eqn:T10;
    [split; intros; first [lia | discriminate]|].
  destruct (total <? 20) eqn:T20;
    [split; intros; first [lia | discriminate]|].
  destruct (total <? 30) eqn:T30;
    [split; intros; first [reflexivity | lia]|].
  destruct (total <? 40) eqn:T40; split; intros; first [reflexivity | lia].
Qed.


(** X9. For a non-empty password the last feedback message is the
    "Great! ..." remark exactly when the result is reported strong. *)
Theorem X9_closing_remark_matches_is_strong (password : str) :
  truthy password = true ->
  exists r front closing,
    check_password password = Ok r /\
    feedback r = front ++ [closing] /\
    (is_strong r = true <->
     closing = "Great! This is a strong password."%string).
Proof.
  intros Hne. exists (result_of password).
  unfold result_of. rewrite Hne. cbn [feedback is_strong _create_result].
  unfold feedback_layout.
  eexists _, _. split; [now apply check_password_nonempty|].
  split; [rewrite !app_assoc; reflexivity|].
  destruct (_determine_strength (total_score password));
    cbn; split; intros H; first [reflexivity | discriminate H].
Qed.

(** X9 at a strong password. *)
Lemma X9_closing_remark_matches_is_strong_witness :
  truthy (lit "P@ssw0rd2024") = true /\
  exists r front closing,
    check_password (lit "P@ssw0rd2024") = Ok r /\
    feedback r = front ++ [closing] /\
    (is_strong r = true <->
     closing = "Great! This is a strong password."%string).
Proof.
  split; [reflexivity|].
  apply (X9_closing_remark_matches_is_strong (lit "P@ssw0rd2024")).
  reflexivity.
Defined.

(** X10. On an ASCII password [lower] is the shift of A-Z: the password gets
    the common-password penalty exactly when its letters, put in lowercase,
    spell one of the ten common passwords. *)
Theorem X10_ascii_common_match_ignores_case (password : str) :
  Forall is_ascii password ->
  lower password = map ascii_lower password /\
  (_check_patterns password = Ok (-10) <->
   In (map ascii_lower password) common_passwords).
Proof.
  intros Ha.
  assert (El : lower password = map ascii_lower password)
    by now apply do_lower_ascii.
  split; [exact El|].
  rewrite check_patterns_ok, <- El, <- set_mem_In.
  unfold pattern_penalty, is_common.
  destruct (set_mem (lower password) common_passwords),
    (has_sequential_run password), (has_repeated_run password);
    split; intros H; first [reflexivity | discriminate H].
Qed.

(** X10 at ["QwErTy"]. *)
Lemma X10_ascii_common_match_ignores_case_witness :
  Forall is_ascii (lit "QwErTy") /\
  lower (lit "QwErTy") = map ascii_lower (lit "QwErTy") /\
  (_check_patterns (lit "QwErTy") = Ok (-10) <->
   In (map ascii_lower (lit "QwErTy")) common_passwords).
Proof.
  assert (H : Forall is_ascii (lit "QwErTy"))
    by (repeat constructor; unfold is_ascii; lia).
  split; [exact H|].
  apply (X10_ascii_common_match_ignores_case (lit "QwErTy") H).
Defined.

(** X11. On an ASCII password the digit class is 0-9, so the variety
    sub-score is five points for each of a-z, A-Z, 0-9 and the special
    characters that occurs. *)
Theorem X11_ascii_variety_counts_ascii_classes (password : str) :
  Forall is_ascii password ->
  re_search_class class_digit password = existsb (in_range 48 57) password /\
  _check_character_variety password =
    5 * (Z.b2z (existsb (in_range 97 122) password) +
         Z.b2z (existsb (in_range 65 90) password) +
         Z.b2z (existsb (in_range 48 57) password) +
         Z.b2z (existsb (fun c => existsb (Z.eqb c) special_characters)
                        password)).
Proof.
  intros Ha.
  assert (Ed : re_search_class class_digit password
               = existsb (in_range 48 57) password).
  { unfold re_search_class. induction Ha as [|c s Hc Hs IH]; [reflexivity|].
    cbn [existsb]. now rewrite IH, class_digit_ascii. }
  split; [exact Ed|].
  rewrite check_character_variety_count. unfold class_count.
  now rewrite Ed.
Qed.

(** X11 at ["abc123"]. *)
Lemma X11_ascii_variety_counts_ascii_classes_witness :
  Forall is_ascii (lit "abc123") /\
  re_search_class class_digit (lit "abc123")
    = existsb (in_range 48 57) (lit "abc123") /\
  _check_character_variety (lit "abc123") =
    5 * (Z.b2z (existsb (in_range 97 122) (lit "abc123")) +
         Z.b2z (existsb (in_range 65 90) (lit "abc123")) +
         Z.b2z (existsb (in_range 48 57) (lit "abc123")) +
         Z.b2z (existsb (fun c => existsb (Z.eqb c) special_characters)
                        (lit "abc123"))).
Proof.
  assert (H : Forall is_ascii (lit "abc123"))
    by (repeat constructor; unfold is_ascii; lia).
  split; [exact H|].
  apply (X11_ascii_variety_counts_ascii_classes (lit "abc123") H).
Defined.

(* ================================================================== *)
(** * The command-line loop                                            *)
(* ================================================================== *)



(* ================================================================== *)
(** * The password generator                                           *)
(* ================================================================== *)

Lemma getitem_in_range (s : str) (i : Z) :
  0 <= i < len s -> exists c, getitem s i = Ok c /\ In c s.
Proof.
  intros Hi. unfold getitem.
  destruct (i <? 0) eqn:N; [lia|]. rewrite N.
  destruct (len s <=? i) eqn:U; [lia|]. cbn [orb].
  destruct (nth_error s (Z.to_nat i)) as [c|] eqn:E.
  - exists c. split; [reflexivity|]. now apply nth_error_In in E.
  - apply nth_error_None in E. unfold len in Hi. lia.
Qed.

Lemma join_choices_ok (characters : str) (rand : nat -> Z) (n k : nat) :
  (forall j, 0 <= rand j < len characters) ->
  exists p,
    Gui.join_choices characters rand k n = Ok p /\
    List.length p = n /\
    Forall (fun c => In c characters) p.
Proof.
  intros Hr. revert k. induction n as [|n IH]; intros k.
  - exists []. repeat split. constructor.
  - cbn [Gui.join_choices]. unfold Gui.choice.
    destruct (getitem_in_range characters (rand k) (Hr k)) as (c & -> & Hc).
    destruct (IH (S k)) as (p & -> & Hl & Hp).
    exists (c :: p). cbn [bind List.length]. repeat split; [lia|].
    now constructor.
Qed.

(** Every character of the generator's alphabet is an ASCII character of
    one of the four classes. *)
Lemma generator_alphabet_classified (c : Z) :
  In c generator_alphabet ->
  is_ascii c /\
  (class_lower c || class_upper c || class_digit c || class_special c) = true.
Proof.
  intros Hc.
  assert (H : forallb (fun c => (c <? 128) &&
                (class_lower c || class_upper c || class_digit c
                 || class_special c)) generator_alphabet = true)
    by (vm_compute; reflexivity).
  rewrite forallb_forall in H. specialize (H c Hc).
  apply andb_true_iff in H as [H1 H2]. unfold is_ascii. split; [lia | exact H2].
Qed.

Lemma class_count_head_any (c : Z) (rest : str) :
  (class_lower c || class_upper c || class_digit c || class_special c) = true ->
  1 <= class_count (c :: rest).
Proof.
  intros H. apply orb_true_iff in H as [H | H].
  - now apply class_count_head.
  - unfold class_count.
    pose proof (b2z_range (re_search_class class_lower (c :: rest))).
    pose proof (b2z_range (re_search_class class_upper (c :: rest))).
    pose proof (b2z_range (re_search_class class_digit (c :: rest))).
    apply (re_search_class_head _ c rest) in H. rewrite H. cbn [Z.b2z]. lia.
Qed.

(** X13. Whatever the sixteen draws, [generate_password] raises nothing and
    builds a 16-character password over its alphabet of 70 characters; the
    check that follows scores it between 15 and 35 and rates it Fair, Good
    or Strong. *)
Theorem X13_generated_password_rating (rand : nat -> Z) :
  (forall k, 0 <= rand k < len generator_alphabet) ->
  exists password r,
    Gui.generate_password rand = Ok (password, Some r) /\
    len password = 16 /\
    Forall (fun c => In c generator_alphabet) password /\
    check_password password = Ok r /\
    15 <= score r <= 35 /\
    (strength r = value FAIR \/ strength r = value GOOD \/
     strength r = value STRONG).
Proof.
  intros Hr. unfold Gui.generate_password.
  fold generator_alphabet.
  destruct (join_choices_ok generator_alphabet rand (range_count 16) 0 Hr)
    as (p & -> & Hl & Hp).
  cbn [bind]. change (range_count 16) with 16%nat in Hl.
  assert (Hlen : len p = 16) by (unfold len; rewrite Hl; reflexivity).
  destruct p as [|c rest]; [discriminate Hl|].
  unfold Gui.check_password. cbn [truthy negb].
  rewrite check_password_result_of. cbn [bind].
  exists (c :: rest), (result_of (c :: rest)).
  split; [reflexivity|]. split; [exact Hlen|]. split; [exact Hp|].
  split; [apply check_password_result_of|].
  unfold result_of. cbn [truthy score strength _create_result].
  pose proof (total_score_bounds (c :: rest)) as Hub.
  assert (Hlb : 15 <= total_score (c :: rest)).
  { unfold total_score. rewrite check_character_variety_count.
    assert (Hc : In c generator_alphabet) by now inversion Hp.
    pose proof (class_count_head_any c rest
                  (proj2 (generator_alphabet_classified c Hc))).
    assert (Hcm : is_common (c :: rest) = false).
    { destruct (is_common (c :: rest)) eqn:C; [|reflexivity].
      apply is_common_length in C. lia. }
    unfold pattern_penalty. rewrite Hcm.
    unfold _check_length. rewrite Hlen. cbn [Z.ltb Z.compare Pos.compare
      Pos.compare_cont].
    destruct (has_sequential_run (c :: rest)), (has_repeated_run (c :: rest));
      lia. }
  split; [lia|].
  unfold _determine_strength.
  destruct (total_score (c :: rest) <? 5) eqn:T5; [lia|].
  destruct (total_score (c :: rest) <? 10) eqn:T10; [lia|].
  destruct (total_score (c :: rest) <? 20); [now left|].
  destruct (total_score (c :: rest) <? 30); [right; now left|].
  destruct (total_score (c :: rest) <? 40) eqn:T40; [right; now right | lia].
Qed.

(** X13 with draws that walk through the alphabet. *)
Lemma X13_generated_password_rating_witness :
  (forall k, 0 <= Z.of_nat k mod 70 < len generator_alphabet) /\
  exists password r,
    Gui.generate_password (fun k => Z.of_nat k mod 70)
      = Ok (password, Some r) /\
    len password = 16 /\
    Forall (fun c => In c generator_alphabet) password /\
    check_password password = Ok r /\
    15 <= score r <= 35 /\
    (strength r = value FAIR \/ strength r = value GOOD \/
     strength r = value STRONG).
Proof.
  assert (H : forall k, 0 <= Z.of_nat k mod 70 < len generator_alphabet)
    by (intros k; change (len generator_alphabet) with 70;
        apply Z.mod_pos_bound; lia).
  split; [exact H|].
  apply (X13_generated_password_rating (fun k => Z.of_nat k mod 70) H).
Defined.

(** X14. The generator does not always produce a strong password: when the
    sixteen draws pick the same character, whichever it is, the password
    scores 15, is rated Fair and is not reported strong. *)
Theorem X14_generated_password_can_be_fair (j : Z) :
  0 <= j < len generator_alphabet ->
  exists password r,
    Gui.generate_password (fun _ => j) = Ok (password, Some r) /\
    score r = 15 /\ strength r = value FAIR /\ is_strong r = false.
Proof.
  intros Hj.
  assert (Hall : forallb same_draw_is_fair (map Z.of_nat (seq 0 70)) = true)
    by (vm_compute; reflexivity).
  rewrite forallb_forall in Hall.
  assert (Hin : In j (map Z.of_nat (seq 0 70))).
  { apply in_map_iff. exists (Z.to_nat j).
    change (len generator_alphabet) with 70 in Hj.
    split; [lia | apply in_seq; lia]. }
  specialize (Hall j Hin). unfold same_draw_is_fair in Hall.
  destruct (Gui.generate_password (fun _ => j)) as [[p [r|]]|];
    try discriminate Hall.
  apply andb_true_iff in Hall as [Hall Hs].
  apply andb_true_iff in Hall as [Hsc Hst].
  exists p, r. split; [reflexivity|].
  apply Z.eqb_eq in Hsc. apply String.eqb_eq in Hst.
  apply negb_true_iff in Hs. auto.
Qed.

(** X14 when every draw is 0, the letter [a]. *)
Lemma X14_generated_password_can_be_fair_witness :
  0 <= 0 < len generator_alphabet /\
  exists password r,
    Gui.generate_password (fun _ => 0) = Ok (password, Some r) /\
    score r = 15 /\ strength r = value FAIR /\ is_strong r = false.
Proof.
  assert (H : 0 <= 0 < len generator_alphabet)
    by (change (len generator_alphabet) with 70; lia).
  split; [exact H|].
  apply (X14_generated_password_can_be_fair 0 H).
Defined.

(** X15. Characters beyond ASCII belong to none of the lowercase, uppercase
    and special classes: a password made of such characters earns the five
    points of the digit class when one of them is a Unicode decimal digit,
    and no variety point otherwise. *)
Theorem X15_non_ascii_password_variety (password : str) :
  Forall (fun c => 128 <= c) password ->
  re_search_class class_lower password = false /\
  re_search_class class_upper password = false /\
  re_search_class class_special password = false /\
  _check_character_variety password =
    (if re_search_class class_digit password then 5 else 0).
Proof.
  intros H. rewrite Forall_forall in H.
  assert (Hl : re_search_class class_lower password = false).
  { apply re_search_class_none. intros c Hc. specialize (H c Hc).
    unfold class_lower, in_range. destruct (c <=? 122) eqn:E; [lia|].
    apply andb_false_r. }
  assert (Hu : re_search_class class_upper password = false).
  { apply re_search_class_none. intros c Hc. specialize (H c Hc).
    unfold class_upper, in_range. destruct (c <=? 90) eqn:E; [lia|].
    apply andb_false_r. }
  assert (Hs : re_search_class class_special password = false).
  { apply re_search_class_none. intros c Hc. specialize (H c Hc).
    destruct (class_special c) eqn:E; [|reflexivity].
    apply class_special_ascii in E as [E _]. unfold is_ascii in E. lia. }
  repeat split; try assumption.
  unfold _check_character_variety. rewrite Hl, Hu, Hs.
  now destruct (re_search_class class_digit password).
Qed.

(** X15 at an accented letter followed by an Arabic-Indic digit. *)
Lemma X15_non_ascii_password_variety_witness :
  Forall (fun c => 128 <= c) [0xE1; 0x663] /\
  re_search_class class_lower [0xE1; 0x663] = false /\
  re_search_class class_upper [0xE1; 0x663] = false /\
  re_search_class class_special [0xE1; 0x663] = false /\
  _check_character_variety [0xE1; 0x663] =
    (if re_search_class class_digit [0xE1; 0x663] then 5 else 0).
Proof.
  assert (H : Forall (fun c => 128 <= c) [0xE1; 0x663])
    by (repeat constructor; lia).
  split; [exact H|].
  apply (X15_non_ascii_password_variety [0xE1; 0x663] H).
Defined.
